(** * signalform/util.go: a shallow embedding and its verified properties

    The Go file [signalform/util.go] holds the glue between the Terraform
    resource data of the provider and the SignalFx REST API: one HTTP helper
    ([sendRequest]), the four lifecycle operations ([resourceRead],
    [resourceCreate], [resourceUpdate], [resourceDelete]), a few schema
    validators, the colour-scale option builder and the relative time-range
    parser.

    Conventions of the embedding.
    - A Go [string] and a Go [[]byte] are sequences of bytes: [string]. A
      [[]byte] that may be [nil] is an [option string].
    - A Go [int] is a [Z] kept in the signed 64-bit range; the one
      multiplication of the file is wrapped with [wrap_int].
    - A Go [float64] is a primitive binary64 [float].
    - An [interface{}] is a [value] tagged with its dynamic type; an unchecked
      type assertion [v.(T)] panics on any other tag.
    - A run-time panic is the [Panic] outcome of [result].
    - [*schema.ResourceData] is threaded explicitly: the lifecycle operations
      are functions from the data before the call to the outcome and the data
      after it.
    - The calls that leave the repository (net/http, encoding/json) are
      answered by a [World]. *)

From Stdlib Require Import ZArith String Ascii List Floats Lia.
From Stdlib Require Import Sorting.Permutation Sorting.Sorted.
From stdpp Require Import base option list gmap strings sorting.

Set Warnings "-register-all".
Open Scope string_scope.
Open Scope Z_scope.

(** ** Dynamic values, errors and panics *)

Inductive value : Type :=
| VNil
| VBool (b : bool)
| VInt (n : Z)
| VFloat (f : float)
| VString (s : string)
| VBytes (b : option string)
| VIntSlice (l : list Z)
| VList (l : list value)
| VSet (l : list value)
| VMap (m : gmap string value)
| VMapSlice (l : list (gmap string value)).

(** An [error] records how it was built. [Errorf format args] is
    [fmt.Errorf(format, args...)]; the argument [ErrorText e] is the string
    [e.Error()]. [LibError] is an error handed back by a library call, with
    its message; [NumError] is strconv's. *)
Inductive error : Type :=
| LibError (msg : string)
| NumError (Func Num Err : string)
| Errorf (format : string) (args : list fmt_arg)
with fmt_arg : Type :=
| Arg (v : value)
| ErrorText (e : error).

Inductive panic : Type :=
| NilPointerDereference
| IndexOutOfRange (index : nat) (len : nat)
| InterfaceConversion (want : string).

Inductive result (A : Type) : Type :=
| Ok (a : A)
| Panic (p : panic).
Arguments Ok {A} a.
Arguments Panic {A} p.

#[global] Instance result_ret : MRet result := @Ok.
#[global] Instance result_bind : MBind result :=
  fun A B f m => match m with Ok a => f a | Panic p => Panic p end.

(** Unchecked type assertions. *)
Definition assert_string (v : value) : result string :=
  match v with VString s => Ok s | _ => Panic (InterfaceConversion "string") end.
Definition assert_float64 (v : value) : result float :=
  match v with VFloat f => Ok f | _ => Panic (InterfaceConversion "float64") end.
Definition assert_int (v : value) : result Z :=
  match v with VInt n => Ok n | _ => Panic (InterfaceConversion "int") end.
Definition assert_bool (v : value) : result bool :=
  match v with VBool b => Ok b | _ => Panic (InterfaceConversion "bool") end.
Definition assert_list (v : value) : result (list value) :=
  match v with VList l => Ok l | _ => Panic (InterfaceConversion "[]interface {}") end.
Definition assert_map (v : value) : result (gmap string value) :=
  match v with VMap m => Ok m | _ => Panic (InterfaceConversion "map[string]interface {}") end.
Definition assert_set (v : value) : result (list value) :=
  match v with VSet l => Ok l | _ => Panic (InterfaceConversion "*schema.Set") end.

(** [m[k]] on a [map[string]interface{}]: the zero value [nil] when absent. *)
Definition map_index (m : gmap string value) (k : string) : value :=
  default VNil (m !! k).

(** [s[i]] on a slice: a run-time panic when out of range. *)
Definition slice_index {A} (s : list A) (i : nat) : result A :=
  match s !! i with
  | Some x => Ok x
  | None => Panic (IndexOutOfRange i (length s))
  end.

(** ** Machine integers

    [int] has the width of the platform; the embedding takes the 64-bit
    platforms ([strconv.IntSize] = 64). *)

Definition intSize : Z := 64.
Definition MaxInt : Z := 2 ^ (intSize - 1) - 1.
Definition MinInt : Z := - 2 ^ (intSize - 1).
Definition wrap_int (z : Z) : Z :=
  (z + 2 ^ (intSize - 1)) mod 2 ^ intSize - 2 ^ (intSize - 1).

(** ** Byte strings: digits, [strings.Contains], [strconv.Atoi] *)

Definition is_digit (c : ascii) : bool :=
  (48 <=? nat_of_ascii c)%nat && (nat_of_ascii c <=? 57)%nat.

Fixpoint digitsb (s : string) : bool :=
  match s with
  | EmptyString => true
  | String c r => is_digit c && digitsb r
  end.

Definition digit_val (c : ascii) : Z := Z.of_nat (nat_of_ascii c) - 48.

Fixpoint decimal_acc (acc : Z) (s : string) : Z :=
  match s with
  | EmptyString => acc
  | String c r => decimal_acc (acc * 10 + digit_val c) r
  end.

Definition decimal (s : string) : Z := decimal_acc 0 s.

Fixpoint has_prefix (p s : string) : bool :=
  match p, s with
  | EmptyString, _ => true
  | String a p', String b s' => Ascii.eqb a b && has_prefix p' s'
  | String _ _, EmptyString => false
  end.

Fixpoint strings_Contains (s substr : string) : bool :=
  has_prefix substr s ||
  match s with
  | EmptyString => false
  | String _ r => strings_Contains r substr
  end.

(** [string(b)] for a [[]byte]. *)
Definition string_of_bytes (b : option string) : string := default "" b.

(** [strconv.Atoi]: an optional sign, then decimal digits only; a value
    outside the [int] range is clamped and reported as a range error. *)
Definition strconv_Atoi (s : string) : Z * option error :=
  let '(neg, ds) :=
    match s with
    | String "-" r => (true, r)
    | String "+" r => (false, r)
    | _ => (false, s)
    end in
  match ds with
  | EmptyString => (0, Some (NumError "Atoi" s "invalid syntax"))
  | _ =>
    if negb (digitsb ds) then (0, Some (NumError "Atoi" s "invalid syntax"))
    else
      let n := decimal ds in
      if neg then
        if - MinInt <? n then (MinInt, Some (NumError "Atoi" s "value out of range"))
        else (- n, None)
      else
        if MaxInt <? n then (MaxInt, Some (NumError "Atoi" s "value out of range"))
        else (n, None)
  end.

(** ** The relative-time pattern

    The file compiles two patterns, ["-([0-9]+)[mhdw]"] (validator) and
    ["-([0-9]+)([mhdw])"] (parser). They accept the same text and differ in
    the groups they capture. Every character of the patterns is ASCII, so
    matching bytes and matching runes agree. *)

Definition is_unit (c : ascii) : bool :=
  Ascii.eqb c "m" || Ascii.eqb c "h" || Ascii.eqb c "d" || Ascii.eqb c "w".

(** The longest run of digits at the head of [s], and what follows it. *)
Fixpoint span_digits (s : string) : string * string :=
  match s with
  | EmptyString => (EmptyString, EmptyString)
  | String c r =>
    if is_digit c then
      let '(ds, rest) := span_digits r in (String c ds, rest)
    else (EmptyString, s)
  end.

(** A match that starts at the first byte of [s]: the digits and the unit.
    [[0-9]+] is greedy; giving digits back cannot help, since the byte after
    a shorter run is a digit and no unit. *)
Definition match_here (s : string) : option (string * ascii) :=
  match s with
  | String "-" r =>
    match span_digits r with
    | (String d ds, String u _) =>
      if is_unit u then Some (String d ds, u) else None
    | _ => None
    end
  | _ => None
  end.

(** The leftmost match. *)
Fixpoint find_match (s : string) : option (string * ascii) :=
  match match_here s with
  | Some m => Some m
  | None =>
    match s with
    | EmptyString => None
    | String _ r => find_match r
    end
  end.

(** [regexp.MustCompile("-([0-9]+)[mhdw]").MatchString]. *)
Definition regexp_MatchString (s : string) : bool :=
  match find_match s with Some _ => true | None => false end.

(** [regexp.MustCompile("-([0-9]+)([mhdw])").FindStringSubmatch]: the whole
    match and the two groups, or [nil]. *)
Definition regexp_FindStringSubmatch (s : string) : list string :=
  match find_match s with
  | Some (ds, u) =>
    [String "-" (ds +:+ String u EmptyString); ds; String u EmptyString]
  | None => []
  end.

(** ** Validators *)

Definition chart_colors : list string :=
  ["gray"; "blue"; "navy"; "orange"; "yellow"; "magenta"; "purple"; "violet";
   "lilac"; "green"; "aquamarine"].

Definition validateChartColor (v : value) (k : string)
  : result (list string * list error) :=
  value ← assert_string v;
  if negb (String.eqb value "gray") && negb (String.eqb value "blue")
     && negb (String.eqb value "navy") && negb (String.eqb value "orange")
     && negb (String.eqb value "yellow") && negb (String.eqb value "magenta")
     && negb (String.eqb value "purple") && negb (String.eqb value "violet")
     && negb (String.eqb value "lilac") && negb (String.eqb value "green")
     && negb (String.eqb value "aquamarine")
  then
    Ok ([], [Errorf
      "%s not allowed; must be either gray, blue, navy, orange, yellow, magenta, purple, violet, lilac, green, aquamarine"
      [Arg (VString value)]])
  else Ok ([], []).

Definition validateTimeSpanType (v : value) (k : string)
  : result (list string * list error) :=
  value ← assert_string v;
  if negb (String.eqb value "relative") && negb (String.eqb value "absolute") then
    Ok ([], [Errorf "%s not allowed; must be either relative or absolute"
               [Arg (VString value)]])
  else Ok ([], []).

Definition validateSortBy (v : value) (k : string)
  : result (list string * list error) :=
  value ← assert_string v;
  if negb (has_prefix "+" value) && negb (has_prefix "-" value) then
    Ok ([], [Errorf
      "%s not allowed; must start either with + or - (ascending or descending)"
      [Arg (VString value)]])
  else Ok ([], []).

Definition validateSignalfxRelativeTime (v : value) (k : string)
  : result (list string * list error) :=
  ts ← assert_string v;
  if negb (regexp_MatchString ts) then
    Ok ([], [Errorf
      "%s not allowed. Please use milliseconds from epoch or SignalFx time syntax (e.g. -5m, -1h)"
      [Arg (VString ts)]])
  else Ok ([], []).

(** ** Time-range parser *)

(** The [switch ss[2]] of [fromRangeToMilliSeconds]. *)
Definition unit_multiplier (u : string) : Z :=
  if String.eqb u "m" then 60 * 1000
  else if String.eqb u "h" then 60 * 60 * 1000
  else if String.eqb u "d" then 24 * 60 * 60 * 1000
  else if String.eqb u "w" then 7 * 24 * 60 * 60 * 1000
  else 1.

Definition fromRangeToMilliSeconds (timeRange : string) : result (Z * option error) :=
  let ss := regexp_FindStringSubmatch timeRange in
  u ← slice_index ss 2;
  let c := unit_multiplier u in
  d ← slice_index ss 1;
  match strconv_Atoi d with
  | (_, Some err) => Ok (-1, Some err)
  | (val, None) => Ok (wrap_int (val * c), None)
  end.

(** ** The world outside the repository

    [sendRequest] calls [http.NewRequest], [client.Do] and [ioutil.ReadAll];
    the lifecycle operations call [json.Unmarshal]. A [World] says how these
    calls answer.
    - [http_NewRequest_err method url] is the error of [http.NewRequest]
      (an invalid method, a URL that does not parse), [None] when the request
      is built. On an error the request returned is [nil].
    - [client_Do req] is either a transport error or a response: its status
      code and the outcome of reading its body.
    - [json_Unmarshal body] is the decoding of [body] into a
      [map[string]interface{}], or the decoder's error. *)

Record Request : Type := {
  Method : string;
  URL : string;
  Header : list (string * string);
  Body : string
}.

Inductive read_outcome : Type :=
| ReadAll_ok (body : string)
| ReadAll_err (err : error).

Inductive do_outcome : Type :=
| Do_err (err : error)
| Do_resp (StatusCode : Z) (body : read_outcome).

Record World : Type := {
  http_NewRequest_err : string -> string -> option error;
  client_Do : Request -> do_outcome;
  json_Unmarshal : option string -> error + gmap string value
}.

(** ** HTTP transport *)

Definition sendRequest (w : World) (method url token : string)
    (payload : option string) : result (Z * option string * option error) :=
  match http_NewRequest_err w method url with
  | Some _ =>
    (* [req] is nil and its error is not looked at: [req.Header] faults *)
    Panic NilPointerDereference
  | None =>
    let req := {|
      Method := if String.eqb method "" then "GET" else method;
      URL := url;
      Header := [("Content-Type", "application/json"); ("X-SF-Token", token)];
      Body := string_of_bytes payload |} in
    match client_Do w req with
    | Do_err err =>
      Ok (-1, None,
          Some (Errorf "Failed sending %s request to Signalfx: %s"
                  [Arg (VString method); ErrorText err]))
    | Do_resp code (ReadAll_err err) =>
      Ok (code, None,
          Some (Errorf "Failed reading response body from %s request: %s"
                  [Arg (VString method); ErrorText err]))
    | Do_resp code (ReadAll_ok body) => Ok (code, Some body, None)
    end
  end.

(** ** Resource data

    [schema.ResourceData] belongs to the Terraform SDK. The file uses four of
    its methods: [Get], [Set], [SetId] and [GetOk]. The data is its
    identifier, the schema of the resource (the type each declared field has;
    the resources are declared in other files of the provider) and the
    fields that are set, by name. [Get] returns the value of a field that is
    set, the zero value of its type for a declared field that is not set, and
    [nil] for a name the schema does not declare. [Set] stores the value it
    is given (the file ignores what [Set] returns). *)

Inductive ValueType : Type :=
| TypeBool
| TypeInt
| TypeFloat
| TypeString
| TypeList
| TypeMap
| TypeSet.

(** [ValueType.Zero]. *)
Definition zero_value (t : ValueType) : value :=
  match t with
  | TypeBool => VBool false
  | TypeInt => VInt 0
  | TypeFloat => VFloat 0
  | TypeString => VString ""
  | TypeList => VList []
  | TypeMap => VMap ∅
  | TypeSet => VSet []
  end.

Record ResourceData : Type := {
  Id : string;
  schema : gmap string ValueType;
  fields : gmap string value
}.

Definition d_Get (d : ResourceData) (key : string) : value :=
  match fields d !! key with
  | Some v => v
  | None =>
    match schema d !! key with
    | Some t => zero_value t
    | None => VNil
    end
  end.
Definition d_Set (key : string) (v : value) (d : ResourceData) : ResourceData :=
  {| Id := Id d; schema := schema d; fields := <[key := v]> (fields d) |}.
Definition d_SetId (id : string) (d : ResourceData) : ResourceData :=
  {| Id := id; schema := schema d; fields := fields d |}.

(** [GetOk]: the value, and whether it is set to something other than the
    zero value of its type. *)
Definition is_zero (v : value) : bool :=
  match v with
  | VNil => true
  | VBool b => negb b
  | VInt n => n =? 0
  | VFloat f => (f =? 0)%float
  | VString s => String.eqb s ""
  | VBytes b => match b with None => true | Some s => String.eqb s "" end
  | VIntSlice l => match l with [] => true | _ => false end
  | VList l => match l with [] => true | _ => false end
  | VSet l => match l with [] => true | _ => false end
  | VMap m => bool_decide (m = ∅)
  | VMapSlice l => match l with [] => true | _ => false end
  end.
Definition d_GetOk (d : ResourceData) (key : string) : value * bool :=
  (d_Get d key, negb (is_zero (d_Get d key))).

(** Operations on the resource data that may panic. *)
Definition M (A : Type) : Type := ResourceData -> result A * ResourceData.

#[global] Instance M_ret : MRet M := fun A a d => (Ok a, d).
#[global] Instance M_bind : MBind M :=
  fun A B f m d =>
    match m d with
    | (Ok a, d') => f a d'
    | (Panic p, d') => (Panic p, d')
    end.

Definition lift {A} (r : result A) : M A := fun d => (r, d).
Definition Get (key : string) : M value := fun d => (Ok (d_Get d key), d).
Definition SetField (key : string) (v : value) : M unit :=
  fun d => (Ok tt, d_Set key v d).
Definition SetId (id : string) : M unit := fun d => (Ok tt, d_SetId id d).

(** ** Constants and message formats *)

Definition OFFSET : float := 10000%float.

Definition newline : string := String (ascii_of_nat 10) EmptyString.

Definition fmt_status : string :=
  "For the resource %s SignalFx returned status %d: " +:+ newline +:+ "%s".
Definition fmt_status_delete : string :=
  "For the resource  %s SignalFx returned status %d: " +:+ newline +:+ "%s".
Definition fmt_unmarshal_read : string :=
  "Failed unmarshaling for the resource %s during read: %s".
Definition fmt_unmarshal_creation : string :=
  "Failed unmarshaling for the resource %s during creation: %s".
Definition fmt_delete : string := "Failed deleting resource  %s: %s".

(** The error of a status the operation does not accept: the resource name,
    the status code and the raw body. *)
Definition status_error (format : string) (name : value) (status_code : Z)
    (resp_body : option string) : error :=
  Errorf format [Arg name; Arg (VInt status_code); Arg (VBytes resp_body)].

(** ** Lifecycle operations *)

Definition resourceRead (w : World) (url sfxToken : string) : M (option error) :=
  '(status_code, resp_body, err) ← lift (sendRequest w "GET" url sfxToken None);
  if status_code =? 200 then
    match json_Unmarshal w resp_body with
    | inl err =>
      name ← Get "name";
      mret (Some (Errorf fmt_unmarshal_read [Arg name; ErrorText err]))
    | inr mapped_resp =>
      last_updated ← lift (assert_float64 (map_index mapped_resp "lastUpdated"));
      local ← Get "last_updated";
      local ← lift (assert_float64 local);
      if (local + OFFSET <? last_updated)%float then
        _ ← SetField "synced" (VBool false);
        _ ← SetField "last_updated" (VFloat last_updated);
        mret None
      else mret None
    end
  else
    if strings_Contains (string_of_bytes resp_body) "Resource not found" then
      _ ← SetId "";
      mret None
    else
      name ← Get "name";
      mret (Some (status_error fmt_status name status_code resp_body)).

Definition resourceCreate (w : World) (url sfxToken : string)
    (payload : option string) : M (option error) :=
  '(status_code, resp_body, err) ← lift (sendRequest w "POST" url sfxToken payload);
  if status_code =? 200 then
    match json_Unmarshal w resp_body with
    | inl err =>
      name ← Get "name";
      mret (Some (Errorf fmt_unmarshal_creation [Arg name; ErrorText err]))
    | inr mapped_resp =>
      id ← lift (assert_string (map_index mapped_resp "id"));
      _ ← SetId id;
      last_updated ← lift (assert_float64 (map_index mapped_resp "lastUpdated"));
      _ ← SetField "last_updated" (VFloat last_updated);
      _ ← SetField "synced" (VBool true);
      mret None
    end
  else
    name ← Get "name";
    mret (Some (status_error fmt_status name status_code resp_body)).

Definition resourceUpdate (w : World) (url sfxToken : string)
    (payload : option string) : M (option error) :=
  '(status_code, resp_body, err) ← lift (sendRequest w "PUT" url sfxToken payload);
  if status_code =? 200 then
    match json_Unmarshal w resp_body with
    | inl err =>
      name ← Get "name";
      mret (Some (Errorf fmt_unmarshal_creation [Arg name; ErrorText err]))
    | inr mapped_resp =>
      _ ← SetField "synced" (VBool true);
      last_updated ← lift (assert_float64 (map_index mapped_resp "lastUpdated"));
      _ ← SetField "last_updated" (VFloat last_updated);
      mret None
    end
  else
    name ← Get "name";
    mret (Some (status_error fmt_status name status_code resp_body)).

Definition resourceDelete (w : World) (url sfxToken : string) : M (option error) :=
  '(status_code, resp_body, err) ← lift (sendRequest w "DELETE" url sfxToken None);
  match err with
  | Some e =>
    name ← Get "name";
    mret (Some (Errorf fmt_delete [Arg name; ErrorText e]))
  | None =>
    if (status_code <? 400) || (status_code =? 404) then
      _ ← SetId "";
      mret None
    else
      name ← Get "name";
      mret (Some (status_error fmt_status_delete name status_code resp_body))
  end.

(** ** Colour-scale options *)

(** [sort.IntSlice.Less] and [sort.Reverse]. *)
Definition IntSlice_Less (a b : Z) : bool := a <? b.
Definition sort_Reverse (less : Z -> Z -> bool) : Z -> Z -> bool :=
  fun a b => less b a.

(** [sort.Sort] on a short slice is an insertion sort: each element moves
    left while it is [less] than its left neighbour. *)
Fixpoint insert_by (less : Z -> Z -> bool) (x : Z) (l : list Z) : list Z :=
  match l with
  | [] => [x]
  | y :: l' => if less x y then x :: y :: l' else y :: insert_by less x l'
  end.

Definition sort_Sort (less : Z -> Z -> bool) (l : list Z) : list Z :=
  fold_left (fun sorted x => insert_by less x sorted) l [].

Fixpoint assert_ints (l : list value) : result (list Z) :=
  match l with
  | [] => Ok []
  | v :: l' =>
    n ← assert_int v;
    ns ← assert_ints l';
    Ok (n :: ns)
  end.

Definition getColorScaleOptions (d : ResourceData) : result (gmap string value) :=
  let item : gmap string value := ∅ in
  set ← assert_set (d_Get d "color_scale");
  colorScale ← slice_index set 0;
  options ← assert_map colorScale;
  thresholdsList ← assert_list (map_index options "thresholds");
  thresholds ← assert_ints thresholdsList;
  let thresholds := sort_Sort (sort_Reverse IntSlice_Less) thresholds in
  let item := <["thresholds" := VIntSlice thresholds]> item in
  inverted ← assert_bool (map_index options "inverted");
  Ok (<["inverted" := VBool inverted]> item).

(** ** Legend options *)

(** The loop of [getLegendOptions]: one [{property, enabled: false}] item per
    field to hide. *)
Fixpoint legend_items (properties : list value) : result (list (gmap string value)) :=
  match properties with
  | [] => Ok []
  | property :: rest =>
    property ← assert_string property;
    let item : gmap string value :=
      <["enabled" := VBool false]> (<["property" := VString property]> ∅) in
    items ← legend_items rest;
    Ok (item :: items)
  end.

(** The result is a [map[string]interface{}], [None] for [nil]. *)
Definition getLegendOptions (d : ResourceData) : result (option (gmap string value)) :=
  let '(properties, ok) := d_GetOk d "legend_fields_to_hide" in
  if ok then
    properties ← assert_set properties;
    let legendOptions : gmap string value := ∅ in
    properties_opts ← legend_items properties;
    if (0 <? length properties_opts)%nat then
      Ok (Some (<["fields" := VMapSlice properties_opts]> legendOptions))
    else Ok None
  else Ok None.

(** ** What the patterns accept, stated on the text

    [relative_time_at s ds u]: [s] starts with ["-"], the digits [ds] (at
    least one) and the unit [u]. [contains_relative_time s]: some part of [s]
    has that shape, which is what an unanchored pattern asks for. *)

Definition relative_time_at (s ds : string) (u : ascii) : Prop :=
  exists suf, s = String "-" (ds +:+ String u suf)
    /\ ds <> EmptyString /\ digitsb ds = true /\ is_unit u = true.

Definition contains_relative_time (s : string) : Prop :=
  exists pre ds u suf, s = pre +:+ String "-" (ds +:+ String u suf)
    /\ ds <> EmptyString /\ digitsb ds = true /\ is_unit u = true.

(** The whole of [s] has that shape: nothing before the ["-"], nothing after
    the unit. *)
Definition is_relative_time (s : string) : Prop :=
  exists ds u, s = String "-" (ds +:+ String u EmptyString)
    /\ ds <> EmptyString /\ digitsb ds = true /\ is_unit u = true.

(** The leftmost part of [s] that has that shape: it starts after [pre], and
    no part of that shape starts inside [pre]. *)
Definition leftmost_relative_time (s ds : string) (u : ascii) : Prop :=
  exists pre suf,
    s = pre +:+ String "-" (ds +:+ String u suf) /\
    ds <> EmptyString /\ digitsb ds = true /\ is_unit u = true /\
    forall a b, pre = a +:+ b -> b <> EmptyString ->
      forall ds' u', ~ relative_time_at (b +:+ String "-" (ds +:+ String u suf)) ds' u'.

(** Highest first. *)
Definition descending : relation Z := fun a b => b <= a.

(** The order the colour-scale builder sorts by. *)
Definition sort_desc (l : list Z) : list Z :=
  sort_Sort (sort_Reverse IntSlice_Less) l.

(** ** Sample worlds and resource data *)

Definition dquote : string := String (ascii_of_nat 34) EmptyString.

(** A world where every request is built, [client.Do] answers [resp], and the
    decoder is [decode]. *)
Definition world_of (resp : do_outcome)
    (decode : option string -> error + gmap string value) : World :=
  {| http_NewRequest_err := fun _ _ => None;
     client_Do := fun _ => resp;
     json_Unmarshal := decode |}.

(** A decoder that knows one body. *)
Definition decode_only (body : string) (m : gmap string value)
  : option string -> error + gmap string value :=
  fun b =>
    match b with
    | Some s =>
      if String.eqb s body then inr m
      else inl (LibError "invalid character looking for beginning of value")
    | None => inl (LibError "unexpected end of JSON input")
    end.

(** A world whose [http.NewRequest] rejects the URL [":"]. *)
Definition world_rejecting_colon : World :=
  {| http_NewRequest_err := fun _ url =>
       if String.eqb url ":"
       then Some (LibError ("parse " +:+ dquote +:+ ":" +:+ dquote +:+ ": missing protocol scheme"))
       else None;
     client_Do := fun _ => Do_err (LibError "connection refused");
     json_Unmarshal := fun _ => inl (LibError "unexpected end of JSON input") |}.

(** The fields the lifecycle operations use, as a resource declares them. *)
Definition chart_schema : gmap string ValueType :=
  <["name" := TypeString]>
  (<["synced" := TypeBool]>
  (<["last_updated" := TypeFloat]>
  (<["color_scale" := TypeSet]>
  (<["legend_fields_to_hide" := TypeSet]> ∅)))).

Definition chart_data (last_updated : float) : ResourceData :=
  {| Id := "DkMfHmBAgAA";
     schema := chart_schema;
     fields := <["name" := VString "cpu chart"]>
               (<["synced" := VBool true]>
               (<["last_updated" := VFloat last_updated]> ∅)) |}.

(** The body [{"lastUpdated": <digits>}]. *)
Definition body_last_updated (digits : string) : string :=
  "{" +:+ dquote +:+ "lastUpdated" +:+ dquote +:+ ": " +:+ digits +:+ "}".

Definition world_last_updated (digits : string) (f : float) : World :=
  world_of (Do_resp 200 (ReadAll_ok (body_last_updated digits)))
           (decode_only (body_last_updated digits) (<["lastUpdated" := VFloat f]> ∅)).

Definition color_scale_data : ResourceData :=
  {| Id := "";
     schema := chart_schema;
     fields := <["color_scale" :=
       VSet [VMap (<["thresholds" := VList [VInt 3; VInt 1; VInt 2]]>
                  (<["inverted" := VBool false]> ∅))]]> ∅ |}.

(** ** Proof steps shared by the lifecycle operations *)

Ltac run_M :=
  unfold mbind, mret, M_bind, M_ret, lift, Get, SetField, SetId; cbn beta iota.

(** * Properties *)

(** ** Order of binary64 numbers *)

Lemma SFcompare_antisym (x y : spec_float) :
  SFcompare y x = option_map CompOpp (SFcompare x y).
Proof.
  destruct x as [sx| sx | |sx mx ex], y as [sy|sy| |sy my ey]; simpl;
    try reflexivity;
    try (destruct sx; reflexivity); try (destruct sy; reflexivity);
    try (destruct sx, sy; reflexivity).
  f_equal.
  change (Pos.compare_cont Eq my mx) with (Pos.compare my mx).
  change (Pos.compare_cont Eq mx my) with (Pos.compare mx my).
  rewrite (Z.compare_antisym ex ey), (Pos.compare_antisym mx my).
  destruct sx, sy; try reflexivity;
    destruct (ex ?= ey); simpl; try reflexivity;
    destruct (mx ?= my)%positive; reflexivity.
Qed.

Lemma float_ltb_asym (x y : float) :
  (x <? y)%float = true -> (y <? x)%float = false.
Proof.
  rewrite !FloatAxioms.ltb_spec. unfold SFltb.
  rewrite (SFcompare_antisym (Prim2SF x) (Prim2SF y)).
  destruct (SFcompare (Prim2SF x) (Prim2SF y)) as [[]|]; simpl; congruence.
Qed.

Lemma float_eqb_not_ltb (x y : float) :
  (x =? y)%float = true -> (y <? x)%float = false.
Proof.
  rewrite FloatAxioms.eqb_spec, FloatAxioms.ltb_spec. unfold SFltb, SFeqb.
  rewrite (SFcompare_antisym (Prim2SF x) (Prim2SF y)).
  destruct (SFcompare (Prim2SF x) (Prim2SF y)) as [[]|]; simpl; congruence.
Qed.

(** ** The pattern matcher against the text *)

Lemma is_unit_not_digit (u : ascii) : is_unit u = true -> is_digit u = false.
Proof.
  unfold is_unit. intros H.
  repeat (apply orb_prop in H; destruct H as [H|H]);
    apply Ascii.eqb_eq in H; subst u; reflexivity.
Qed.

Lemma span_digits_spec (s ds rest : string) :
  span_digits s = (ds, rest) ->
  s = ds +:+ rest /\ digitsb ds = true /\
  match rest with String c _ => is_digit c = false | EmptyString => True end.
Proof.
  revert ds rest. induction s as [|c r IH]; simpl; intros ds rest H.
  - inversion H; subst. auto.
  - destruct (is_digit c) eqn:Hc.
    + destruct (span_digits r) as [ds' rest'] eqn:Hr.
      inversion H; subst. destruct (IH ds' rest eq_refl) as (-> & Hd & Hn).
      simpl. rewrite Hc, Hd. auto.
    + inversion H; subst. simpl. auto.
Qed.

Lemma span_digits_app (ds rest : string) :
  digitsb ds = true ->
  match rest with String c _ => is_digit c = false | EmptyString => True end ->
  span_digits (ds +:+ rest) = (ds, rest).
Proof.
  induction ds as [|c r IH]; simpl; intros Hd Hn.
  - destruct rest as [|c r]; simpl; [reflexivity|]. now rewrite Hn.
  - apply andb_prop in Hd. destruct Hd as [Hc Hr].
    rewrite Hc, (IH Hr Hn). reflexivity.
Qed.

Lemma match_here_spec (s ds : string) (u : ascii) :
  match_here s = Some (ds, u) <-> relative_time_at s ds u.
Proof.
  unfold match_here, relative_time_at. split.
  - destruct s as [|c r]; [discriminate|].
    destruct (Ascii.eqb_spec c "-") as [->|Hc].
    2:{ intros H. exfalso. revert H.
        destruct c as [[] [] [] [] [] [] [] []]; try discriminate.
        now contradict Hc. }
    destruct (span_digits r) as [ds' rest] eqn:Hr.
    apply span_digits_spec in Hr. destruct Hr as (-> & Hd & Hn).
    destruct ds' as [|d ds']; [discriminate|].
    destruct rest as [|u' suf]; [discriminate|].
    destruct (is_unit u') eqn:Hu; [|discriminate].
    intros H; inversion H; subst. exists suf. repeat split; auto; discriminate.
  - intros (suf & -> & Hne & Hd & Hu).
    rewrite (span_digits_app ds (String u suf) Hd (is_unit_not_digit u Hu)).
    destruct ds as [|d ds']; [contradiction|]. now rewrite Hu.
Qed.

Lemma match_here_None (s : string) :
  match_here s = None <-> forall ds u, ~ relative_time_at s ds u.
Proof.
  split.
  - intros H ds u Hm. apply match_here_spec in Hm. congruence.
  - intros H. destruct (match_here s) as [[ds u]|] eqn:Hm; [|reflexivity].
    apply match_here_spec in Hm. now apply H in Hm.
Qed.

Lemma find_match_Some (s ds : string) (u : ascii) :
  find_match s = Some (ds, u) ->
  exists pre suf, s = pre +:+ String "-" (ds +:+ String u suf)
    /\ ds <> EmptyString /\ digitsb ds = true /\ is_unit u = true.
Proof.
  induction s as [|c r IH].
  - simpl. discriminate.
  - cbn [find_match]. destruct (match_here (String c r)) as [[ds' u']|] eqn:Hm.
    + intros H; inversion H; subst. apply match_here_spec in Hm.
      destruct Hm as (suf & Hs & Hrest). exists EmptyString, suf. now rewrite Hs.
    + intros H. destruct (IH H) as (pre & suf & -> & Hrest).
      exists (String c pre), suf. auto.
Qed.

Lemma find_match_complete (pre ds suf : string) (u : ascii) :
  ds <> EmptyString -> digitsb ds = true -> is_unit u = true ->
  find_match (pre +:+ String "-" (ds +:+ String u suf)) <> None.
Proof.
  intros Hne Hd Hu. induction pre as [|c r IH].
  - change (EmptyString +:+ ?x) with x.
    assert (Hm : match_here (String "-" (ds +:+ String u suf)) = Some (ds, u)).
    { apply match_here_spec. exists suf. auto. }
    destruct ds; [contradiction|].
    cbn [find_match]. rewrite Hm. discriminate.
  - change (String c r +:+ ?x) with (String c (r +:+ x)).
    cbn [find_match]. destruct (match_here _); [discriminate|]. exact IH.
Qed.

Lemma find_match_here (ds suf : string) (u : ascii) :
  ds <> EmptyString -> digitsb ds = true -> is_unit u = true ->
  find_match (String "-" (ds +:+ String u suf)) = Some (ds, u).
Proof.
  intros Hne Hd Hu.
  assert (Hm : match_here (String "-" (ds +:+ String u suf)) = Some (ds, u)).
  { apply match_here_spec. exists suf. auto. }
  cbn [find_match]. now rewrite Hm.
Qed.

Lemma regexp_MatchString_spec (s : string) :
  regexp_MatchString s = true <-> contains_relative_time s.
Proof.
  unfold regexp_MatchString, contains_relative_time. split.
  - destruct (find_match s) as [[ds u]|] eqn:Hf; [|discriminate].
    intros _. apply find_match_Some in Hf.
    destruct Hf as (pre & suf & Hs). exists pre, ds, u, suf. exact Hs.
  - intros (pre & ds & u & suf & -> & Hne & Hd & Hu).
    pose proof (find_match_complete pre ds suf u Hne Hd Hu) as H.
    destruct (find_match _); [reflexivity|congruence].
Qed.

(** ** Time-range parser *)

Lemma is_digit_val (c : ascii) : is_digit c = true -> 0 <= digit_val c <= 9.
Proof.
  unfold is_digit, digit_val. intros H. apply andb_prop in H. destruct H as [H1 H2].
  apply Nat.leb_le in H1, H2. lia.
Qed.

Lemma decimal_acc_nonneg (s : string) (acc : Z) :
  digitsb s = true -> 0 <= acc -> 0 <= decimal_acc acc s.
Proof.
  revert acc. induction s as [|c r IH]; simpl; intros acc Hd Hacc; [lia|].
  apply andb_prop in Hd. destruct Hd as [Hc Hr].
  apply IH; [exact Hr|]. pose proof (is_digit_val c Hc). lia.
Qed.

Lemma decimal_nonneg (s : string) : digitsb s = true -> 0 <= decimal s.
Proof. intros H. apply decimal_acc_nonneg; [exact H|lia]. Qed.

Lemma strconv_Atoi_digits (ds : string) :
  ds <> EmptyString -> digitsb ds = true ->
  strconv_Atoi ds =
    if MaxInt <? decimal ds
    then (MaxInt, Some (NumError "Atoi" ds "value out of range"))
    else (decimal ds, None).
Proof.
  intros Hne Hd. destruct ds as [|c r]; [contradiction|].
  assert (Hc : is_digit c = true) by (simpl in Hd; now apply andb_prop in Hd).
  unfold strconv_Atoi.
  destruct c as [[] [] [] [] [] [] [] []]; try discriminate Hc;
    cbv beta iota; rewrite Hd; reflexivity.
Qed.

Lemma unit_multiplier_unit (u : ascii) :
  is_unit u = true ->
  (u = "m"%char /\ unit_multiplier (String u EmptyString) = 60000) \/
  (u = "h"%char /\ unit_multiplier (String u EmptyString) = 3600000) \/
  (u = "d"%char /\ unit_multiplier (String u EmptyString) = 86400000) \/
  (u = "w"%char /\ unit_multiplier (String u EmptyString) = 604800000).
Proof.
  unfold is_unit. intros H.
  repeat (apply orb_prop in H; destruct H as [H|H]);
    apply Ascii.eqb_eq in H; subst u; auto 6.
Qed.

Lemma wrap_int_small (z : Z) : MinInt <= z <= MaxInt -> wrap_int z = z.
Proof.
  unfold wrap_int, MinInt, MaxInt, intSize. intros H.
  change (2 ^ (64 - 1)) with 9223372036854775808 in *.
  change (2 ^ 64) with 18446744073709551616.
  rewrite Z.mod_small; lia.
Qed.

Lemma fromRangeToMilliSeconds_found (s ds : string) (u : ascii) :
  find_match s = Some (ds, u) ->
  fromRangeToMilliSeconds s =
    match strconv_Atoi ds with
    | (_, Some err) => Ok (-1, Some err)
    | (val, None) => Ok (wrap_int (val * unit_multiplier (String u EmptyString)), None)
    end.
Proof.
  intros Hf. unfold fromRangeToMilliSeconds, regexp_FindStringSubmatch.
  rewrite Hf. reflexivity.
Qed.

Lemma fromRangeToMilliSeconds_not_found (s : string) :
  find_match s = None ->
  fromRangeToMilliSeconds s = Panic (IndexOutOfRange 2 0).
Proof.
  intros Hf. unfold fromRangeToMilliSeconds, regexp_FindStringSubmatch.
  rewrite Hf. reflexivity.
Qed.

(** C2. The parser does not guard the match: on every input that holds no
    match of the pattern, [FindStringSubmatch] gives [nil] and [ss[2]] panics
    with an index out of range; on every other input it returns. So the
    parser crashes exactly on the inputs the claim says it survives. *)
Theorem fromRangeToMilliSeconds_no_match_panics (s : string) :
  ~ contains_relative_time s <->
  fromRangeToMilliSeconds s = Panic (IndexOutOfRange 2 0).
Proof.
  rewrite <- regexp_MatchString_spec. unfold regexp_MatchString. split.
  - intros H. apply fromRangeToMilliSeconds_not_found.
    destruct (find_match s); [now contradict H|reflexivity].
  - destruct (find_match s) as [[ds u]|] eqn:Hf; [|intros _; discriminate].
    rewrite (fromRangeToMilliSeconds_found s ds u Hf).
    destruct (strconv_Atoi ds) as [val [err|]]; discriminate.
Qed.

(** C3 (amended). For every time range that starts with a match
    [-<N><u>], [u] one of m, h, d, w: the multiplier is 60000, 3600000,
    86400000 or 604800000; when [N] fits an [int] the result is [N] times the
    multiplier reduced to 64 bits, hence exactly the product when the
    product fits; when [N] does not fit, the parser returns -1 and strconv's
    range error. *)
Theorem fromRangeToMilliSeconds_matched (ds suf : string) (u : ascii) :
  ds <> EmptyString -> digitsb ds = true -> is_unit u = true ->
  let timeRange := String "-" (ds +:+ String u suf) in
  let N := decimal ds in
  let c := unit_multiplier (String u EmptyString) in
  ((u = "m"%char /\ c = 60000) \/ (u = "h"%char /\ c = 3600000) \/
   (u = "d"%char /\ c = 86400000) \/ (u = "w"%char /\ c = 604800000)) /\
  (N <= MaxInt -> fromRangeToMilliSeconds timeRange = Ok (wrap_int (N * c), None)) /\
  (N * c <= MaxInt -> fromRangeToMilliSeconds timeRange = Ok (N * c, None)) /\
  (MaxInt < N -> fromRangeToMilliSeconds timeRange =
     Ok (-1, Some (NumError "Atoi" ds "value out of range"))).
Proof.
  intros Hne Hd Hu timeRange N c.
  pose proof (unit_multiplier_unit u Hu) as Hc. fold c in Hc.
  pose proof (decimal_nonneg ds Hd) as HN. fold N in HN.
  assert (Hrun : fromRangeToMilliSeconds timeRange =
            if MaxInt <? N
            then Ok (-1, Some (NumError "Atoi" ds "value out of range"))
            else Ok (wrap_int (N * c), None)).
  { unfold timeRange.
    rewrite (fromRangeToMilliSeconds_found _ ds u (find_match_here ds suf u Hne Hd Hu)).
    rewrite (strconv_Atoi_digits ds Hne Hd). fold N c.
    destruct (MaxInt <? N); reflexivity. }
  split; [exact Hc|]. rewrite Hrun.
  assert (Hc1 : 1 <= c) by (destruct Hc as [[_ ->]|[[_ ->]|[[_ ->]|[_ ->]]]]; lia).
  repeat split.
  - intros H. apply Z.ltb_ge in H. now rewrite H.
  - intros H. assert (HleN : N <= MaxInt) by nia.
    apply Z.ltb_ge in HleN. rewrite HleN. rewrite wrap_int_small; [reflexivity|].
    unfold MinInt, intSize. change (- 2 ^ (64 - 1)) with (-9223372036854775808). nia.
  - intros H. apply Z.ltb_lt in H. now rewrite H.
Qed.


Lemma fromRangeToMilliSeconds_matched_witness :
  fromRangeToMilliSeconds "-5m" = Ok (300000, None).
Proof.
  refine (proj1 (proj2 (proj2 (fromRangeToMilliSeconds_matched "5" "" "m" _ _ _))) _).
  - discriminate.
  - reflexivity.
  - reflexivity.
  - vm_compute. discriminate.
Defined.

Example fromRangeToMilliSeconds_1h :
  fromRangeToMilliSeconds "-1h" = Ok (3600000, None).
Proof. reflexivity. Qed.

Example fromRangeToMilliSeconds_2d :
  fromRangeToMilliSeconds "-2d" = Ok (172800000, None).
Proof. reflexivity. Qed.

Example fromRangeToMilliSeconds_1w :
  fromRangeToMilliSeconds "-1w" = Ok (604800000, None).
Proof. reflexivity. Qed.

(** The leftmost match decides, wherever it stands in the text. *)
Example fromRangeToMilliSeconds_leftmost :
  fromRangeToMilliSeconds "x-5s-12h" = Ok (43200000, None).
Proof. reflexivity. Qed.

(** C3, as stated, fails twice. With a unit outside m, h, d, w the pattern
    finds nothing and the parser panics instead of returning the magnitude;
    with a large magnitude the product leaves the [int] range and wraps, or
    the magnitude itself is refused. *)
Lemma fromRangeToMilliSeconds_other_unit_and_overflow :
  fromRangeToMilliSeconds "-5s" = Panic (IndexOutOfRange 2 0) /\
  fromRangeToMilliSeconds "-9223372036854775807w" = Ok (-604800000, None) /\
  fromRangeToMilliSeconds "-99999999999999999999m" =
    Ok (-1, Some (NumError "Atoi" "99999999999999999999" "value out of range")).
Proof. repeat split; vm_compute; reflexivity. Qed.

(** The [default] branch of the switch is dead: a unit the pattern captured
    never gets the multiplier 1. *)
Lemma unit_multiplier_never_default (s ds : string) (u : ascii) :
  find_match s = Some (ds, u) -> unit_multiplier (String u EmptyString) <> 1.
Proof.
  intros Hf. apply find_match_Some in Hf.
  destruct Hf as (pre & suf & _ & _ & _ & Hu).
  destruct (unit_multiplier_unit u Hu) as [[_ ->]|[[_ ->]|[[_ ->]|[_ ->]]]]; lia.
Qed.

(** ** Validators *)

(** C10 (amended). For every string [ts] the relative-time validator returns
    no warnings and a list of errors that is empty exactly when [ts] contains
    a match of [-[0-9]+[mhdw]], anywhere in it (the pattern is not anchored);
    when it contains none, the list is the single error naming both accepted
    forms. *)
Theorem validateSignalfxRelativeTime_spec (ts k : string) :
  exists errors,
    validateSignalfxRelativeTime (VString ts) k = Ok ([], errors) /\
    (errors = [] <-> contains_relative_time ts) /\
    (~ contains_relative_time ts ->
     errors = [Errorf
       "%s not allowed. Please use milliseconds from epoch or SignalFx time syntax (e.g. -5m, -1h)"
       [Arg (VString ts)]]).
Proof.
  unfold validateSignalfxRelativeTime. cbn.
  pose proof (regexp_MatchString_spec ts) as Hm.
  destruct (regexp_MatchString ts); cbn.
  - exists []. split; [reflexivity|]. split.
    + split; [intros _; now apply Hm|reflexivity].
    + intros Hn. exfalso. apply Hn. now apply Hm.
  - eexists. split; [reflexivity|]. split.
    + split; [discriminate|]. intros Hc. apply Hm in Hc. discriminate.
    + reflexivity.
Qed.

Lemma is_relative_time_digits (r : string) :
  is_relative_time (String "-" r) ->
  exists ds u, r = ds +:+ String u EmptyString /\ digitsb ds = true /\ is_unit u = true.
Proof.
  intros (ds & u & H & _ & Hd & Hu). inversion H; subst. now exists ds, u.
Qed.

(** C10, as stated, fails: the validator asks for a match somewhere in the
    value, not for a value of the form [-<integer><unit>]. It returns no
    error on ["from -15m on"] and on ["-5mxyz"], neither of which has that
    form. *)
Lemma validateSignalfxRelativeTime_accepts_embedded_match :
  validateSignalfxRelativeTime (VString "from -15m on") "start_time" = Ok ([], []) /\
  ~ is_relative_time "from -15m on" /\
  validateSignalfxRelativeTime (VString "-5mxyz") "start_time" = Ok ([], []) /\
  ~ is_relative_time "-5mxyz".
Proof.
  split; [reflexivity|]. split; [|split; [reflexivity|]].
  - intros (ds & u & H & _). discriminate H.
  - intros H. apply is_relative_time_digits in H.
    destruct H as (ds & u & H & Hd & Hu).
    destruct ds as [|c1 ds]; [discriminate H|].
    injection H as <- H.
    destruct ds as [|c2 ds]; [discriminate H|].
    injection H as <- H.
    discriminate Hd.
Qed.

(** A value of the form [-<integer><unit>] contains a match. *)
Lemma is_relative_time_contains (s : string) :
  is_relative_time s -> contains_relative_time s.
Proof.
  intros (ds & u & Hs & Hne & Hd & Hu). now exists EmptyString, ds, u, EmptyString.
Qed.

Example validateSignalfxRelativeTime_accepts :
  validateSignalfxRelativeTime (VString "-5m") "start_time" = Ok ([], []).
Proof. reflexivity. Qed.

(** The pattern is not anchored: text around a match is accepted. *)
Example validateSignalfxRelativeTime_unanchored :
  validateSignalfxRelativeTime (VString "from -15m on") "start_time" = Ok ([], []).
Proof. reflexivity. Qed.

Example validateSignalfxRelativeTime_rejects :
  validateSignalfxRelativeTime (VString "5m") "start_time" =
    Ok ([], [Errorf
      "%s not allowed. Please use milliseconds from epoch or SignalFx time syntax (e.g. -5m, -1h)"
      [Arg (VString "5m")]]).
Proof. reflexivity. Qed.

(** ** [strings.Contains] *)

Lemma has_prefix_spec (p s : string) :
  has_prefix p s = true <-> exists suf, s = p +:+ suf.
Proof.
  revert s. induction p as [|a p IH]; intros s; simpl.
  - split; [intros _; now exists s|reflexivity].
  - destruct s as [|b s].
    + split; [discriminate|]. intros (suf & H). discriminate.
    + rewrite andb_true_iff, Ascii.eqb_eq, IH. split.
      * intros (-> & suf & ->). now exists suf.
      * intros (suf & H). inversion H; subst. split; [reflexivity|now exists suf].
Qed.

Lemma strings_Contains_spec (s substr : string) :
  strings_Contains s substr = true <-> exists pre suf, s = pre +:+ substr +:+ suf.
Proof.
  induction s as [|c r IH].
  - cbn [strings_Contains]. rewrite orb_false_r, has_prefix_spec. split.
    + intros (suf & H). now exists EmptyString, suf.
    + intros (pre & suf & H). destruct pre; [now exists suf|discriminate].
  - cbn [strings_Contains]. rewrite orb_true_iff, has_prefix_spec, IH. split.
    + intros [(suf & H)|(pre & suf & H)].
      * now exists EmptyString, suf.
      * exists (String c pre), suf. now rewrite H.
    + intros (pre & suf & H). destruct pre as [|a pre].
      * left. now exists suf.
      * right. inversion H; subst. now exists pre, suf.
Qed.

(** ** HTTP transport *)

Lemma sendRequest_NewRequest_error (w : World) (method url token : string)
    (payload : option string) (e : error) :
  http_NewRequest_err w method url = Some e ->
  sendRequest w method url token payload = Panic NilPointerDereference.
Proof. intros H. unfold sendRequest. now rewrite H. Qed.

(** A failure of [client.Do] (connection refused, timeout): the sentinel
    status -1, no body, and an error that wraps the cause. *)
Lemma sendRequest_Do_error (w : World) (method url token : string)
    (payload : option string) (e : error) :
  http_NewRequest_err w method url = None ->
  (forall req, client_Do w req = Do_err e) ->
  sendRequest w method url token payload =
    Ok (-1, None, Some (Errorf "Failed sending %s request to Signalfx: %s"
                          [Arg (VString method); ErrorText e])).
Proof. intros H1 H2. unfold sendRequest. now rewrite H1, H2. Qed.

(** C7. [sendRequest] does crash on one transport failure: it panics with a
    nil dereference exactly when [http.NewRequest] fails (a malformed
    request), because the error of [http.NewRequest] is never looked at. *)
Theorem sendRequest_panics_iff_NewRequest_fails (w : World)
    (method url token : string) (payload : option string) :
  sendRequest w method url token payload = Panic NilPointerDereference <->
  http_NewRequest_err w method url <> None.
Proof.
  unfold sendRequest. destruct (http_NewRequest_err w method url) as [e|].
  - split; [discriminate|reflexivity].
  - split; [|congruence].
    destruct (client_Do w _) as [e|code [body|e]]; discriminate.
Qed.

Lemma sendRequest_Do_error_witness :
  sendRequest (world_of (Do_err (LibError "i/o timeout")) (decode_only "{}" ∅))
      "PUT" "url" "token" (Some "{}") =
    Ok (-1, None, Some (Errorf "Failed sending %s request to Signalfx: %s"
                          [Arg (VString "PUT"); ErrorText (LibError "i/o timeout")])).
Proof.
  refine (sendRequest_Do_error
    (world_of (Do_err (LibError "i/o timeout")) (decode_only "{}" ∅))
    "PUT" "url" "token" (Some "{}") (LibError "i/o timeout") _ _).
  - reflexivity.
  - intros req. reflexivity.
Defined.

(** A body that cannot be read in full: the error still carries the status
    code of the response, and no body. *)
Lemma sendRequest_read_error (w : World) (method url token : string)
    (payload : option string) (code : Z) (e : error) :
  http_NewRequest_err w method url = None ->
  (forall req, client_Do w req = Do_resp code (ReadAll_err e)) ->
  sendRequest w method url token payload =
    Ok (code, None, Some (Errorf "Failed reading response body from %s request: %s"
                            [Arg (VString method); ErrorText e])).
Proof. intros H1 H2. unfold sendRequest. now rewrite H1, H2. Qed.

Lemma sendRequest_read_error_witness :
  sendRequest (world_of (Do_resp 200 (ReadAll_err (LibError "unexpected EOF")))
                 (decode_only "{}" ∅)) "GET" "url" "token" None =
    Ok (200, None, Some (Errorf "Failed reading response body from %s request: %s"
                           [Arg (VString "GET"); ErrorText (LibError "unexpected EOF")])).
Proof.
  refine (sendRequest_read_error
    (world_of (Do_resp 200 (ReadAll_err (LibError "unexpected EOF"))) (decode_only "{}" ∅))
    "GET" "url" "token" None 200 (LibError "unexpected EOF") _ _).
  - reflexivity.
  - intros req. reflexivity.
Defined.

Example sendRequest_malformed_url :
  sendRequest world_rejecting_colon "GET" ":" "token" None =
    Panic NilPointerDereference.
Proof. reflexivity. Qed.

Example sendRequest_connection_refused :
  sendRequest world_rejecting_colon "GET" "https://api.signalfx.com/v2/chart" "token" None =
    Ok (-1, None, Some (Errorf "Failed sending %s request to Signalfx: %s"
                          [Arg (VString "GET"); ErrorText (LibError "connection refused")])).
Proof. reflexivity. Qed.

(** ** Resource Read *)

(** [Get] on a field that is set. *)
Lemma d_Get_set (d : ResourceData) (key : string) (v : value) :
  fields d !! key = Some v -> d_Get d key = v.
Proof. intros H. unfold d_Get. now rewrite H. Qed.

(** [Get] on a declared field that is not set: the zero value of its type. *)
Lemma d_Get_unset (d : ResourceData) (key : string) (t : ValueType) :
  fields d !! key = None -> schema d !! key = Some t ->
  d_Get d key = zero_value t.
Proof. intros H1 H2. unfold d_Get. now rewrite H1, H2. Qed.

Lemma resourceRead_200_decoded (w : World) (url tok : string) (d : ResourceData)
    (resp_body : option string) (err : option error)
    (mapped_resp : gmap string value) (remote loc : float) :
  sendRequest w "GET" url tok None = Ok (200, resp_body, err) ->
  json_Unmarshal w resp_body = inr mapped_resp ->
  mapped_resp !! "lastUpdated" = Some (VFloat remote) ->
  d_Get d "last_updated" = VFloat loc ->
  resourceRead w url tok d =
    if (loc + OFFSET <? remote)%float
    then (Ok None, d_Set "last_updated" (VFloat remote) (d_Set "synced" (VBool false) d))
    else (Ok None, d).
Proof.
  intros Hsend Hjson Hremote Hlocal.
  unfold resourceRead. run_M. rewrite Hsend. cbn beta iota.
  change (200 =? 200) with true. cbn beta iota. rewrite Hjson.
  unfold map_index. rewrite Hremote, Hlocal. cbn.
  destruct (loc + OFFSET <? remote)%float; reflexivity.
Qed.

(** Whatever a Read over a status 200 does, the data it leaves is the data it
    found, or that data with [synced] and [last_updated] set. *)
Lemma resourceRead_200_state (w : World) (url tok : string) (d : ResourceData)
    (resp_body : option string) (err : option error) :
  sendRequest w "GET" url tok None = Ok (200, resp_body, err) ->
  (resourceRead w url tok d).2 = d \/
  exists remote, (resourceRead w url tok d).2 =
    d_Set "last_updated" (VFloat remote) (d_Set "synced" (VBool false) d).
Proof.
  intros Hsend. unfold resourceRead. run_M. rewrite Hsend. cbn beta iota.
  change (200 =? 200) with true. cbn beta iota.
  destruct (json_Unmarshal w resp_body) as [e|mapped_resp]; [now left|].
  destruct (assert_float64 (map_index mapped_resp "lastUpdated")) as [remote|p];
    [|now left].
  destruct (assert_float64 (d_Get d "last_updated")) as [loc|p]; [|now left].
  destruct (loc + OFFSET <? remote)%float; [right; now exists remote|now left].
Qed.

(** C1. Over a status 200 whose body decodes to an object with a numeric
    [lastUpdated], and with a numeric local [last_updated]: when the remote
    value is strictly greater than local plus [OFFSET] (in binary64), Read
    succeeds, sets [synced] to false and [last_updated] to the remote value;
    when it is equal or smaller, and in general whenever it is not strictly
    greater, Read succeeds and leaves the data as it was. *)
Theorem resourceRead_drift_detection (w : World) (url tok : string)
    (d : ResourceData) (resp_body : option string) (err : option error)
    (mapped_resp : gmap string value) (remote loc : float) :
  sendRequest w "GET" url tok None = Ok (200, resp_body, err) ->
  json_Unmarshal w resp_body = inr mapped_resp ->
  mapped_resp !! "lastUpdated" = Some (VFloat remote) ->
  fields d !! "last_updated" = Some (VFloat loc) ->
  ((loc + OFFSET <? remote)%float = true ->
     resourceRead w url tok d =
       (Ok None, d_Set "last_updated" (VFloat remote) (d_Set "synced" (VBool false) d))) /\
  ((remote =? loc + OFFSET)%float = true \/ (remote <? loc + OFFSET)%float = true ->
     resourceRead w url tok d = (Ok None, d)) /\
  ((loc + OFFSET <? remote)%float = false ->
     resourceRead w url tok d = (Ok None, d)).
Proof.
  intros Hsend Hjson Hremote Hlocal.
  rewrite (resourceRead_200_decoded w url tok d _ _ _ _ _ Hsend Hjson Hremote
             (d_Get_set _ _ _ Hlocal)).
  repeat split.
  - intros ->. reflexivity.
  - intros [H|H].
    + now rewrite (float_eqb_not_ltb _ _ H).
    + now rewrite (float_ltb_asym _ _ H).
  - intros ->. reflexivity.
Qed.

(** Local [last_updated] 1000: the remote value 1000 + OFFSET + 1 is drift,
    the remote value 1000 + OFFSET is not. *)
Lemma resourceRead_drift_detection_witness :
  resourceRead (world_last_updated "11001" 11001) "url" "token" (chart_data 1000) =
    (Ok None, d_Set "last_updated" (VFloat 11001)
                (d_Set "synced" (VBool false) (chart_data 1000))) /\
  resourceRead (world_last_updated "11000" 11000) "url" "token" (chart_data 1000) =
    (Ok None, chart_data 1000).
Proof.
  split.
  - refine (proj1 (resourceRead_drift_detection
      (world_last_updated "11001" 11001) "url" "token" (chart_data 1000)
      (Some (body_last_updated "11001")) None
      (<["lastUpdated" := VFloat 11001]> ∅) 11001%float 1000%float _ _ _ _) _);
      reflexivity.
  - refine (proj1 (proj2 (resourceRead_drift_detection
      (world_last_updated "11000" 11000) "url" "token" (chart_data 1000)
      (Some (body_last_updated "11000")) None
      (<["lastUpdated" := VFloat 11000]> ∅) 11000%float 1000%float _ _ _ _)) _);
      try reflexivity.
    left. reflexivity.
Defined.

(** C8. Over a status 200, whatever the body holds and however Read ends,
    the identifier is the one it found, and so is every field other than
    [synced] and [last_updated]. *)
Theorem resourceRead_200_frame (w : World) (url tok : string) (d : ResourceData)
    (resp_body : option string) (err : option error) :
  sendRequest w "GET" url tok None = Ok (200, resp_body, err) ->
  Id (resourceRead w url tok d).2 = Id d /\
  forall k : string, k <> "synced" -> k <> "last_updated" ->
    fields (resourceRead w url tok d).2 !! k = fields d !! k.
Proof.
  intros Hsend.
  destruct (resourceRead_200_state w url tok d resp_body err Hsend)
    as [->|(remote & ->)].
  - split; [reflexivity|]. intros; reflexivity.
  - split; [reflexivity|]. intros k Hs Hl. cbn.
    rewrite lookup_insert_ne by congruence.
    rewrite lookup_insert_ne by congruence. reflexivity.
Qed.

Lemma resourceRead_200_frame_witness :
  Id (resourceRead (world_last_updated "11001" 11001) "url" "token" (chart_data 1000)).2
    = "DkMfHmBAgAA" /\
  forall k : string, k <> "synced" -> k <> "last_updated" ->
    fields (resourceRead (world_last_updated "11001" 11001) "url" "token"
              (chart_data 1000)).2 !! k
    = fields (chart_data 1000) !! k.
Proof.
  exact (resourceRead_200_frame (world_last_updated "11001" 11001) "url" "token"
           (chart_data 1000) (Some (body_last_updated "11001")) None eq_refl).
Defined.

(** C4 (amended). For every Read whose status is not 200: when the body
    contains ["Resource not found"], Read clears the identifier and succeeds;
    otherwise it fails with the error that carries the resource name, the
    status code and the raw body, and leaves the data as it was. *)
Theorem resourceRead_non_200 (w : World) (url tok : string) (d : ResourceData)
    (status_code : Z) (resp_body : option string) (err : option error) :
  sendRequest w "GET" url tok None = Ok (status_code, resp_body, err) ->
  status_code <> 200 ->
  (strings_Contains (string_of_bytes resp_body) "Resource not found" = true ->
     resourceRead w url tok d = (Ok None, d_SetId "" d)) /\
  (strings_Contains (string_of_bytes resp_body) "Resource not found" = false ->
     resourceRead w url tok d =
       (Ok (Some (status_error fmt_status (d_Get d "name") status_code resp_body)), d)).
Proof.
  intros Hsend Hstatus.
  unfold resourceRead. run_M. rewrite Hsend. cbn beta iota.
  apply Z.eqb_neq in Hstatus. rewrite Hstatus. cbn beta iota.
  split; intros ->; reflexivity.
Qed.

Lemma resourceRead_non_200_witness :
  resourceRead (world_of (Do_resp 404 (ReadAll_ok "Resource not found: chart"))
                  (decode_only "{}" ∅)) "url" "token" (chart_data 1000)
    = (Ok None, d_SetId "" (chart_data 1000)) /\
  resourceRead (world_of (Do_resp 500 (ReadAll_ok "Internal error"))
                  (decode_only "{}" ∅)) "url" "token" (chart_data 1000)
    = (Ok (Some (status_error fmt_status (VString "cpu chart") 500
                   (Some "Internal error"))), chart_data 1000).
Proof.
  split.
  - refine (proj1 (resourceRead_non_200
      (world_of (Do_resp 404 (ReadAll_ok "Resource not found: chart")) (decode_only "{}" ∅))
      "url" "token" (chart_data 1000) 404 (Some "Resource not found: chart") None _ _) _).
    + reflexivity.
    + lia.
    + reflexivity.
  - refine (proj2 (resourceRead_non_200
      (world_of (Do_resp 500 (ReadAll_ok "Internal error")) (decode_only "{}" ∅))
      "url" "token" (chart_data 1000) 500 (Some "Internal error") None _ _) _).
    + reflexivity.
    + lia.
    + reflexivity.
Defined.

(** C4, as stated, fails at status 200: the marker in the body is looked for
    only when the status is not 200. With the body ["Resource not found"] and
    status 200, no decoder makes Read clear the identifier; with a decoder
    that rejects the body, as the text is no JSON, Read fails. *)
Lemma resourceRead_marker_with_200_keeps_id :
  strings_Contains "Resource not found" "Resource not found" = true /\
  (forall decode : option string -> error + gmap string value,
     Id (resourceRead (world_of (Do_resp 200 (ReadAll_ok "Resource not found")) decode)
           "url" "token" (chart_data 1000)).2 = "DkMfHmBAgAA") /\
  resourceRead (world_of (Do_resp 200 (ReadAll_ok "Resource not found"))
                  (decode_only "{}" ∅)) "url" "token" (chart_data 1000)
    = (Ok (Some (Errorf fmt_unmarshal_read
                   [Arg (VString "cpu chart");
                    ErrorText (LibError "invalid character looking for beginning of value")])),
       chart_data 1000).
Proof.
  split; [reflexivity|]. split; [|reflexivity].
  intros decode.
  destruct (resourceRead_200_state
              (world_of (Do_resp 200 (ReadAll_ok "Resource not found")) decode)
              "url" "token" (chart_data 1000) (Some "Resource not found") None eq_refl)
    as [->|(remote & ->)]; reflexivity.
Qed.

(** ** Resource Delete *)

(** Given what [sendRequest] returned to Delete: with a transport error,
    Delete fails at once with the error that wraps it and leaves the data as
    it was; with none and a status below 400 or equal to 404, Delete succeeds
    and clears the identifier; with none and any other status (at least 400
    and not 404), Delete fails with the error that carries the resource name,
    the status code and the raw body, and leaves the data, the identifier
    included, as it was. *)
Theorem resourceDelete_outcomes (w : World) (url tok : string) (d : ResourceData)
    (status_code : Z) (resp_body : option string) (err : option error) :
  sendRequest w "DELETE" url tok None = Ok (status_code, resp_body, err) ->
  (forall e, err = Some e ->
     resourceDelete w url tok d =
       (Ok (Some (Errorf fmt_delete [Arg (d_Get d "name"); ErrorText e])), d)) /\
  (err = None -> status_code < 400 \/ status_code = 404 ->
     resourceDelete w url tok d = (Ok None, d_SetId "" d)) /\
  (err = None -> 400 <= status_code -> status_code <> 404 ->
     resourceDelete w url tok d =
       (Ok (Some (status_error fmt_status_delete (d_Get d "name") status_code resp_body)),
        d)).
Proof.
  intros Hsend. unfold resourceDelete. run_M. rewrite Hsend. cbn beta iota.
  repeat split.
  - intros e ->. reflexivity.
  - intros -> Hs.
    assert (H : (status_code <? 400) || (status_code =? 404) = true).
    { apply orb_true_iff. destruct Hs as [Hs|Hs].
      - left. now apply Z.ltb_lt.
      - right. now apply Z.eqb_eq. }
    rewrite H. reflexivity.
  - intros -> Hge Hne.
    assert (H : (status_code <? 400) || (status_code =? 404) = false).
    { apply orb_false_iff. split; [now apply Z.ltb_ge|now apply Z.eqb_neq]. }
    rewrite H. reflexivity.
Qed.

(** Delete on 404 clears the identifier; Delete on 500 fails and keeps it;
    Delete when the connection is refused fails with the transport error. *)
Lemma resourceDelete_outcomes_witness :
  resourceDelete (world_of (Do_resp 404 (ReadAll_ok "Resource not found"))
                    (decode_only "{}" ∅)) "url" "token" (chart_data 1000)
    = (Ok None, d_SetId "" (chart_data 1000)) /\
  resourceDelete (world_of (Do_resp 500 (ReadAll_ok "Internal error"))
                    (decode_only "{}" ∅)) "url" "token" (chart_data 1000)
    = (Ok (Some (status_error fmt_status_delete (VString "cpu chart") 500
                   (Some "Internal error"))), chart_data 1000) /\
  resourceDelete (world_of (Do_err (LibError "connection refused"))
                    (decode_only "{}" ∅)) "url" "token" (chart_data 1000)
    = (Ok (Some (Errorf fmt_delete
                   [Arg (VString "cpu chart");
                    ErrorText (Errorf "Failed sending %s request to Signalfx: %s"
                      [Arg (VString "DELETE");
                       ErrorText (LibError "connection refused")])])),
       chart_data 1000).
Proof.
  split; [|split].
  - refine (proj1 (proj2 (resourceDelete_outcomes
      (world_of (Do_resp 404 (ReadAll_ok "Resource not found")) (decode_only "{}" ∅))
      "url" "token" (chart_data 1000) 404 (Some "Resource not found") None _)) _ _).
    + reflexivity.
    + reflexivity.
    + right. reflexivity.
  - refine (proj2 (proj2 (resourceDelete_outcomes
      (world_of (Do_resp 500 (ReadAll_ok "Internal error")) (decode_only "{}" ∅))
      "url" "token" (chart_data 1000) 500 (Some "Internal error") None _)) _ _ _).
    + reflexivity.
    + reflexivity.
    + lia.
    + lia.
  - refine (proj1 (resourceDelete_outcomes
      (world_of (Do_err (LibError "connection refused")) (decode_only "{}" ∅))
      "url" "token" (chart_data 1000) (-1) None _ _) _ _).
    + reflexivity.
    + reflexivity.
Defined.

(** C5. Delete does not fail with a transport error on every transport
    failure: it panics with the nil dereference of [sendRequest], and
    returns no error, exactly when [http.NewRequest] rejects the request (a
    malformed request). *)
Theorem resourceDelete_panics_iff_NewRequest_fails (w : World) (url tok : string)
    (d : ResourceData) :
  resourceDelete w url tok d = (Panic NilPointerDereference, d) <->
  http_NewRequest_err w "DELETE" url <> None.
Proof.
  unfold resourceDelete, sendRequest. run_M.
  destruct (http_NewRequest_err w "DELETE" url) as [e|].
  - split; [discriminate|reflexivity].
  - split; [|congruence]. cbn beta iota.
    destruct (client_Do w _) as [e|code [body|e]]; cbn beta iota;
      try discriminate.
    destruct ((code <? 400) || (code =? 404)); discriminate.
Qed.

Example resourceDelete_malformed_url :
  resourceDelete world_rejecting_colon ":" "token" (chart_data 1000) =
    (Panic NilPointerDereference, chart_data 1000).
Proof. reflexivity. Qed.

(** ** Resource Create *)

Lemma resourceCreate_200_decoded (w : World) (url tok : string)
    (payload : option string) (d : ResourceData)
    (resp_body : option string) (err : option error)
    (mapped_resp : gmap string value) :
  sendRequest w "POST" url tok payload = Ok (200, resp_body, err) ->
  json_Unmarshal w resp_body = inr mapped_resp ->
  resourceCreate w url tok payload d =
    match assert_string (map_index mapped_resp "id") with
    | Panic p => (Panic p, d)
    | Ok id =>
      match assert_float64 (map_index mapped_resp "lastUpdated") with
      | Panic p => (Panic p, d_SetId id d)
      | Ok last_updated =>
        (Ok None, d_Set "synced" (VBool true)
                    (d_Set "last_updated" (VFloat last_updated) (d_SetId id d)))
      end
    end.
Proof.
  intros Hsend Hjson. unfold resourceCreate. run_M. rewrite Hsend. cbn beta iota.
  change (200 =? 200) with true. cbn beta iota. rewrite Hjson.
  destruct (assert_string (map_index mapped_resp "id")) as [id|p]; [|reflexivity].
  destruct (assert_float64 (map_index mapped_resp "lastUpdated")); reflexivity.
Qed.

(** Over a status 200 with a body that decodes to an object holding a string
    [id] and a numeric [lastUpdated], Create succeeds and sets the
    identifier, [last_updated] and [synced]. *)
Theorem resourceCreate_success (w : World) (url tok : string)
    (payload : option string) (d : ResourceData)
    (resp_body : option string) (err : option error)
    (mapped_resp : gmap string value) (id : string) (last_updated : float) :
  sendRequest w "POST" url tok payload = Ok (200, resp_body, err) ->
  json_Unmarshal w resp_body = inr mapped_resp ->
  mapped_resp !! "id" = Some (VString id) ->
  mapped_resp !! "lastUpdated" = Some (VFloat last_updated) ->
  resourceCreate w url tok payload d =
    (Ok None, d_Set "synced" (VBool true)
                (d_Set "last_updated" (VFloat last_updated) (d_SetId id d))).
Proof.
  intros Hsend Hjson Hid Hlu.
  rewrite (resourceCreate_200_decoded w url tok payload d _ _ _ Hsend Hjson).
  unfold map_index. rewrite Hid, Hlu. reflexivity.
Qed.

Lemma resourceCreate_success_witness :
  resourceCreate
      (world_of (Do_resp 200 (ReadAll_ok "created"))
         (decode_only "created"
            (<["id" := VString "AAA"]> (<["lastUpdated" := VFloat 1500]> ∅))))
      "url" "token" (Some "{}") (chart_data 1000) =
    (Ok None, d_Set "synced" (VBool true)
                (d_Set "last_updated" (VFloat 1500) (d_SetId "AAA" (chart_data 1000)))).
Proof.
  refine (resourceCreate_success
    (world_of (Do_resp 200 (ReadAll_ok "created"))
       (decode_only "created"
          (<["id" := VString "AAA"]> (<["lastUpdated" := VFloat 1500]> ∅))))
    "url" "token" (Some "{}") (chart_data 1000) (Some "created") None
    (<["id" := VString "AAA"]> (<["lastUpdated" := VFloat 1500]> ∅))
    "AAA" 1500%float _ _ _ _); reflexivity.
Defined.

(** Over a status 200 with a body the decoder rejects, Create fails with the
    decoding error and leaves the data as it was. *)
Theorem resourceCreate_invalid_json (w : World) (url tok : string)
    (payload : option string) (d : ResourceData)
    (resp_body : option string) (err : option error) (e : error) :
  sendRequest w "POST" url tok payload = Ok (200, resp_body, err) ->
  json_Unmarshal w resp_body = inl e ->
  resourceCreate w url tok payload d =
    (Ok (Some (Errorf fmt_unmarshal_creation [Arg (d_Get d "name"); ErrorText e])), d).
Proof.
  intros Hsend Hjson. unfold resourceCreate. run_M. rewrite Hsend. cbn beta iota.
  change (200 =? 200) with true. cbn beta iota. now rewrite Hjson.
Qed.

Lemma resourceCreate_invalid_json_witness :
  resourceCreate (world_of (Do_resp 200 (ReadAll_ok "<html>")) (decode_only "{}" ∅))
      "url" "token" (Some "{}") (chart_data 1000) =
    (Ok (Some (Errorf fmt_unmarshal_creation
                 [Arg (VString "cpu chart");
                  ErrorText (LibError "invalid character looking for beginning of value")])),
     chart_data 1000).
Proof.
  refine (resourceCreate_invalid_json
    (world_of (Do_resp 200 (ReadAll_ok "<html>")) (decode_only "{}" ∅))
    "url" "token" (Some "{}") (chart_data 1000) (Some "<html>") None
    (LibError "invalid character looking for beginning of value") _ _); reflexivity.
Defined.

(** Over any other status, Create fails with the error that carries the
    resource name, the status code and the raw body, and leaves the data as
    it was. *)
Theorem resourceCreate_non_200 (w : World) (url tok : string)
    (payload : option string) (d : ResourceData)
    (status_code : Z) (resp_body : option string) (err : option error) :
  sendRequest w "POST" url tok payload = Ok (status_code, resp_body, err) ->
  status_code <> 200 ->
  resourceCreate w url tok payload d =
    (Ok (Some (status_error fmt_status (d_Get d "name") status_code resp_body)), d).
Proof.
  intros Hsend Hstatus. unfold resourceCreate. run_M. rewrite Hsend. cbn beta iota.
  apply Z.eqb_neq in Hstatus. now rewrite Hstatus.
Qed.

Lemma resourceCreate_non_200_witness :
  resourceCreate (world_of (Do_resp 400 (ReadAll_ok "Bad request")) (decode_only "{}" ∅))
      "url" "token" (Some "{}") (chart_data 1000) =
    (Ok (Some (status_error fmt_status (VString "cpu chart") 400 (Some "Bad request"))),
     chart_data 1000).
Proof.
  refine (resourceCreate_non_200
    (world_of (Do_resp 400 (ReadAll_ok "Bad request")) (decode_only "{}" ∅))
    "url" "token" (Some "{}") (chart_data 1000) 400 (Some "Bad request") None _ _).
  - reflexivity.
  - lia.
Defined.

(** Over a status 200 with a decoded object that lacks a string [id], Create
    panics on the unchecked type assertion, whatever else the object holds. *)
Lemma resourceCreate_no_id_panics (w : World) (url tok : string)
    (payload : option string) (d : ResourceData)
    (resp_body : option string) (err : option error)
    (mapped_resp : gmap string value) :
  sendRequest w "POST" url tok payload = Ok (200, resp_body, err) ->
  json_Unmarshal w resp_body = inr mapped_resp ->
  (forall id, mapped_resp !! "id" <> Some (VString id)) ->
  resourceCreate w url tok payload d = (Panic (InterfaceConversion "string"), d).
Proof.
  intros Hsend Hjson Hid.
  rewrite (resourceCreate_200_decoded w url tok payload d _ _ _ Hsend Hjson).
  unfold map_index. destruct (mapped_resp !! "id") as [[]|] eqn:E; try reflexivity.
  exfalso. exact (Hid _ eq_refl).
Qed.

(** C6. Create does crash on a well-formed body that lacks the expected
    fields. With status 200 and the body [{}], decoded to the empty object,
    it panics on [mapped_resp["id"].(string)] and returns no error; with an
    [id] and no [lastUpdated] it panics after the identifier is set. *)
Theorem resourceCreate_missing_field_panics :
  resourceCreate (world_of (Do_resp 200 (ReadAll_ok "{}")) (decode_only "{}" ∅))
      "url" "token" (Some "{}") (chart_data 1000)
    = (Panic (InterfaceConversion "string"), chart_data 1000) /\
  resourceCreate (world_of (Do_resp 200 (ReadAll_ok "{}"))
                    (decode_only "{}" (<["id" := VString "AAA"]> ∅)))
      "url" "token" (Some "{}") (chart_data 1000)
    = (Panic (InterfaceConversion "float64"), d_SetId "AAA" (chart_data 1000)).
Proof. split; reflexivity. Qed.

(** ** Resource Update *)

(** Over a status 200 with a body that decodes to an object holding a numeric
    [lastUpdated], Update succeeds and sets [synced] and [last_updated]; the
    identifier stays. *)
Theorem resourceUpdate_success (w : World) (url tok : string)
    (payload : option string) (d : ResourceData)
    (resp_body : option string) (err : option error)
    (mapped_resp : gmap string value) (last_updated : float) :
  sendRequest w "PUT" url tok payload = Ok (200, resp_body, err) ->
  json_Unmarshal w resp_body = inr mapped_resp ->
  mapped_resp !! "lastUpdated" = Some (VFloat last_updated) ->
  resourceUpdate w url tok payload d =
    (Ok None, d_Set "last_updated" (VFloat last_updated)
                (d_Set "synced" (VBool true) d)).
Proof.
  intros Hsend Hjson Hlu. unfold resourceUpdate. run_M. rewrite Hsend. cbn beta iota.
  change (200 =? 200) with true. cbn beta iota. rewrite Hjson.
  unfold map_index. rewrite Hlu. reflexivity.
Qed.

Lemma resourceUpdate_success_witness :
  resourceUpdate
      (world_of (Do_resp 200 (ReadAll_ok "updated"))
         (decode_only "updated" (<["lastUpdated" := VFloat 1500]> ∅)))
      "url" "token" (Some "{}") (chart_data 1000) =
    (Ok None, d_Set "last_updated" (VFloat 1500)
                (d_Set "synced" (VBool true) (chart_data 1000))).
Proof.
  refine (resourceUpdate_success
    (world_of (Do_resp 200 (ReadAll_ok "updated"))
       (decode_only "updated" (<["lastUpdated" := VFloat 1500]> ∅)))
    "url" "token" (Some "{}") (chart_data 1000) (Some "updated") None
    (<["lastUpdated" := VFloat 1500]> ∅) 1500%float _ _ _); reflexivity.
Defined.

(** Over any other status, Update fails with the error that carries the
    resource name, the status code and the raw body, and leaves the data as
    it was. *)
Theorem resourceUpdate_non_200 (w : World) (url tok : string)
    (payload : option string) (d : ResourceData)
    (status_code : Z) (resp_body : option string) (err : option error) :
  sendRequest w "PUT" url tok payload = Ok (status_code, resp_body, err) ->
  status_code <> 200 ->
  resourceUpdate w url tok payload d =
    (Ok (Some (status_error fmt_status (d_Get d "name") status_code resp_body)), d).
Proof.
  intros Hsend Hstatus. unfold resourceUpdate. run_M. rewrite Hsend. cbn beta iota.
  apply Z.eqb_neq in Hstatus. now rewrite Hstatus.
Qed.

Lemma resourceUpdate_non_200_witness :
  resourceUpdate (world_of (Do_resp 403 (ReadAll_ok "Forbidden")) (decode_only "{}" ∅))
      "url" "token" (Some "{}") (chart_data 1000) =
    (Ok (Some (status_error fmt_status (VString "cpu chart") 403 (Some "Forbidden"))),
     chart_data 1000).
Proof.
  refine (resourceUpdate_non_200
    (world_of (Do_resp 403 (ReadAll_ok "Forbidden")) (decode_only "{}" ∅))
    "url" "token" (Some "{}") (chart_data 1000) 403 (Some "Forbidden") None _ _).
  - reflexivity.
  - lia.
Defined.

(** ** Colour-scale options *)

#[global] Instance descending_transitive : Transitive descending.
Proof. unfold descending. intros a b c Hab Hbc. lia. Qed.

#[global] Instance descending_antisymm : AntiSymm (=) descending.
Proof. unfold descending. intros a b Hab Hba. lia. Qed.

Lemma insert_by_Permutation (less : Z -> Z -> bool) (x : Z) (l : list Z) :
  insert_by less x l ≡ₚ x :: l.
Proof.
  induction l as [|y l IH]; simpl; [reflexivity|].
  destruct (less x y); [reflexivity|].
  rewrite IH. apply Permutation_swap.
Qed.

Lemma fold_insert_Permutation (less : Z -> Z -> bool) (l sorted : list Z) :
  fold_left (fun sorted x => insert_by less x sorted) l sorted ≡ₚ l ++ sorted.
Proof.
  revert sorted. induction l as [|x l IH]; intros sorted; simpl; [reflexivity|].
  rewrite IH, insert_by_Permutation. symmetry. apply Permutation_middle.
Qed.

Lemma sort_desc_Permutation (l : list Z) : sort_desc l ≡ₚ l.
Proof.
  unfold sort_desc, sort_Sort. rewrite fold_insert_Permutation.
  now rewrite app_nil_r.
Qed.

Lemma insert_desc_HdRel (a x : Z) (l : list Z) :
  descending a x -> HdRel descending a l ->
  HdRel descending a (insert_by (sort_Reverse IntSlice_Less) x l).
Proof.
  intros Hax Hl. destruct l as [|y l]; simpl.
  - now constructor.
  - destruct (sort_Reverse IntSlice_Less x y); constructor; auto.
    now inversion Hl.
Qed.

Lemma insert_desc_Sorted (x : Z) (l : list Z) :
  Sorted descending l ->
  Sorted descending (insert_by (sort_Reverse IntSlice_Less) x l).
Proof.
  induction 1 as [|y l Hs IH Hhd]; simpl.
  - repeat constructor.
  - unfold sort_Reverse, IntSlice_Less at 1.
    destruct (y <? x) eqn:Hyx.
    + apply Z.ltb_lt in Hyx. constructor.
      * now constructor.
      * constructor. unfold descending. lia.
    + apply Z.ltb_ge in Hyx. constructor; [exact IH|].
      apply insert_desc_HdRel; [exact Hyx|exact Hhd].
Qed.

Lemma fold_insert_desc_Sorted (l sorted : list Z) :
  Sorted descending sorted ->
  Sorted descending
    (fold_left (fun sorted x => insert_by (sort_Reverse IntSlice_Less) x sorted) l sorted).
Proof.
  revert sorted. induction l as [|x l IH]; intros sorted Hs; simpl; [exact Hs|].
  apply IH. now apply insert_desc_Sorted.
Qed.

Lemma sort_desc_Sorted (l : list Z) : Sorted descending (sort_desc l).
Proof. apply fold_insert_desc_Sorted. constructor. Qed.

(** The order is total on integers, so the sorted slice does not depend on
    how [sort.Sort] gets there: it is the one descending arrangement. *)
Lemma sort_desc_unique (l l' : list Z) :
  l' ≡ₚ l -> Sorted descending l' -> sort_desc l = l'.
Proof.
  intros Hp Hs. apply (Sorted_unique descending).
  - apply sort_desc_Sorted.
  - exact Hs.
  - now rewrite sort_desc_Permutation.
Qed.

Lemma assert_ints_VInt (ts : list Z) : assert_ints (VInt <$> ts) = Ok ts.
Proof.
  induction ts as [|t ts IH]; [reflexivity|].
  cbn [fmap list_fmap assert_ints]. cbn. rewrite IH. reflexivity.
Qed.

(** C9. For every resource data whose [color_scale] set lists first an
    options map with an integer [thresholds] list [ts] and a boolean
    [inverted]: the builder returns [thresholds] as the descending
    arrangement of [ts] (sorted highest first, the same elements) and
    [inverted] unchanged; on a list that is already descending the thresholds
    come back as they were, and sorting the output again changes nothing. *)
Theorem getColorScaleOptions_sorted (d : ResourceData)
    (options : gmap string value) (others : list value) (ts : list Z)
    (inverted : bool) :
  d_Get d "color_scale" = VSet (VMap options :: others) ->
  options !! "thresholds" = Some (VList (VInt <$> ts)) ->
  options !! "inverted" = Some (VBool inverted) ->
  getColorScaleOptions d =
    Ok (<["inverted" := VBool inverted]>
          (<["thresholds" := VIntSlice (sort_desc ts)]> ∅)) /\
  Sorted descending (sort_desc ts) /\
  sort_desc ts ≡ₚ ts /\
  (Sorted descending ts -> sort_desc ts = ts) /\
  sort_desc (sort_desc ts) = sort_desc ts.
Proof.
  intros Hset Hts Hinv. split; [|split; [|split; [|split]]].
  - unfold getColorScaleOptions. rewrite Hset. cbn.
    unfold map_index. rewrite Hts, Hinv. cbn.
    rewrite assert_ints_VInt. reflexivity.
  - apply sort_desc_Sorted.
  - apply sort_desc_Permutation.
  - intros Hs. now apply sort_desc_unique.
  - apply sort_desc_unique; [reflexivity | apply sort_desc_Sorted].
Qed.

(** Thresholds [3, 1, 2] with [inverted] false give [3, 2, 1] with
    [inverted] false. *)
Lemma getColorScaleOptions_sorted_witness :
  getColorScaleOptions color_scale_data =
    Ok (<["inverted" := VBool false]> (<["thresholds" := VIntSlice [3; 2; 1]]> ∅)).
Proof.
  exact (proj1 (getColorScaleOptions_sorted color_scale_data
    (<["thresholds" := VList [VInt 3; VInt 1; VInt 2]]> (<["inverted" := VBool false]> ∅))
    [] [3; 1; 2] false eq_refl eq_refl eq_refl)).
Defined.

Example getColorScaleOptions_sorted_input :
  getColorScaleOptions
    {| Id := "";
       schema := chart_schema;
       fields := <["color_scale" :=
         VSet [VMap (<["thresholds" := VList [VInt 3; VInt 2; VInt 1]]>
                    (<["inverted" := VBool true]> ∅))]]> ∅ |} =
    Ok (<["inverted" := VBool true]> (<["thresholds" := VIntSlice [3; 2; 1]]> ∅)).
Proof. reflexivity. Qed.

(** The builder does not check that the set holds an element. *)
Example getColorScaleOptions_empty_set :
  getColorScaleOptions
    {| Id := ""; schema := chart_schema; fields := <["color_scale" := VSet []]> ∅ |} =
    Panic (IndexOutOfRange 0 0).
Proof. reflexivity. Qed.

(** A declared [color_scale] that is not set reads as the empty set, so the
    builder fails on the index, not on the type assertion. *)
Example getColorScaleOptions_unset :
  getColorScaleOptions {| Id := ""; schema := chart_schema; fields := ∅ |} =
    Panic (IndexOutOfRange 0 0).
Proof. reflexivity. Qed.

(** ** Legend options *)

Lemma legend_items_strings (names : list string) :
  legend_items (VString <$> names) =
    Ok ((fun name : string =>
           <["enabled" := VBool false]> (<["property" := VString name]> ∅)) <$> names).
Proof.
  induction names as [|name names IH]; [reflexivity|].
  cbn [fmap list_fmap legend_items]. cbn. rewrite IH. reflexivity.
Qed.

(** For every set of field names to hide: none gives no legend options; one
    or more give a [fields] list with one item per name, in order, each with
    [enabled] false. *)
Theorem getLegendOptions_spec (d : ResourceData) (names : list string) :
  d_Get d "legend_fields_to_hide" = VSet (VString <$> names) ->
  getLegendOptions d =
    match names with
    | [] => Ok None
    | _ :: _ =>
      Ok (Some (<["fields" := VMapSlice
        ((fun name : string =>
            <["enabled" := VBool false]> (<["property" := VString name]> ∅)) <$> names)]> ∅))
    end.
Proof.
  intros Hget. unfold getLegendOptions, d_GetOk. rewrite Hget.
  destruct names as [|name names]; [reflexivity|].
  pose proof (legend_items_strings (name :: names)) as Hitems.
  cbn in Hitems |- *. rewrite Hitems. reflexivity.
Qed.

Lemma getLegendOptions_spec_witness :
  getLegendOptions
    {| Id := "";
       schema := chart_schema;
       fields := <["legend_fields_to_hide" := VSet [VString "foo"; VString "bar"]]> ∅ |} =
    Ok (Some (<["fields" := VMapSlice
      [<["enabled" := VBool false]> (<["property" := VString "foo"]> ∅);
       <["enabled" := VBool false]> (<["property" := VString "bar"]> ∅)]]> ∅)).
Proof.
  exact (getLegendOptions_spec
    {| Id := "";
       schema := chart_schema;
       fields := <["legend_fields_to_hide" := VSet [VString "foo"; VString "bar"]]> ∅ |}
    ["foo"; "bar"] eq_refl).
Defined.

Example getLegendOptions_unset :
  getLegendOptions {| Id := ""; schema := chart_schema; fields := ∅ |} = Ok None.
Proof. reflexivity. Qed.

(** ** Enumeration and prefix validators *)

(** For every string the colour validator returns no warnings; it returns
    no error for one of the eleven accepted colours and exactly one error for
    any other string. *)
Theorem validateChartColor_spec (value k : string) :
  (In value chart_colors ->
     validateChartColor (VString value) k = Ok ([], [])) /\
  (~ In value chart_colors ->
     validateChartColor (VString value) k =
       Ok ([], [Errorf
         "%s not allowed; must be either gray, blue, navy, orange, yellow, magenta, purple, violet, lilac, green, aquamarine"
         [Arg (VString value)]])).
Proof.
  unfold validateChartColor, chart_colors. cbn [assert_string mbind result_bind].
  split.
  - intros Hin. cbn [In] in Hin.
    repeat (destruct Hin as [<-|Hin]; [reflexivity|]). contradiction.
  - intros Hn. cbn [In] in Hn.
    repeat match goal with
    | |- context [String.eqb value ?c] =>
      destruct (String.eqb_spec value c) as [->|_]; [exfalso; apply Hn; tauto|]
    end.
    reflexivity.
Qed.

(** For every string the time-span validator returns no error for
    ["relative"] and ["absolute"] and exactly one error for any other
    string. *)
Theorem validateTimeSpanType_spec (value k : string) :
  (value = "relative" \/ value = "absolute" ->
     validateTimeSpanType (VString value) k = Ok ([], [])) /\
  (value <> "relative" -> value <> "absolute" ->
     validateTimeSpanType (VString value) k =
       Ok ([], [Errorf "%s not allowed; must be either relative or absolute"
                  [Arg (VString value)]])).
Proof.
  unfold validateTimeSpanType. cbn [assert_string mbind result_bind]. split.
  - intros [->| ->]; reflexivity.
  - intros H1 H2. apply String.eqb_neq in H1, H2. now rewrite H1, H2.
Qed.

(** For every string the sort-by validator returns no error when the string
    starts with [+] or [-] and exactly one error otherwise. *)
Theorem validateSortBy_spec (value k : string) :
  ((exists rest, value = String "+" rest) \/ (exists rest, value = String "-" rest) ->
     validateSortBy (VString value) k = Ok ([], [])) /\
  ((forall rest, value <> String "+" rest) -> (forall rest, value <> String "-" rest) ->
     validateSortBy (VString value) k =
       Ok ([], [Errorf
         "%s not allowed; must start either with + or - (ascending or descending)"
         [Arg (VString value)]])).
Proof.
  unfold validateSortBy. cbn [assert_string mbind result_bind]. split.
  - intros [(rest & ->)|(rest & ->)]; reflexivity.
  - intros Hp Hm.
    assert (H1 : has_prefix "+" value = false).
    { destruct (has_prefix "+" value) eqn:E; [|reflexivity].
      apply has_prefix_spec in E. destruct E as (suf & ->). exfalso. exact (Hp suf eq_refl). }
    assert (H2 : has_prefix "-" value = false).
    { destruct (has_prefix "-" value) eqn:E; [|reflexivity].
      apply has_prefix_spec in E. destruct E as (suf & ->). exfalso. exact (Hm suf eq_refl). }
    now rewrite H1, H2.
Qed.

(** * Further properties of the code *)

(** ** Time-range parser and validators on every input *)

Lemma find_match_leftmost (s ds : string) (u : ascii) :
  find_match s = Some (ds, u) -> leftmost_relative_time s ds u.
Proof.
  induction s as [|c r IH].
  - simpl. discriminate.
  - cbn [find_match]. destruct (match_here (String c r)) as [[ds' u']|] eqn:Hm.
    + intros H; inversion H; subst. apply match_here_spec in Hm.
      destruct Hm as (suf & Hs & Hne & Hd & Hu).
      exists EmptyString, suf.
      split; [exact Hs|]. split; [exact Hne|]. split; [exact Hd|].
      split; [exact Hu|].
      intros a b Hab Hb. exfalso. apply Hb.
      destruct a as [|c' a]; [symmetry; exact Hab|discriminate Hab].
    + intros H. destruct (IH H) as (pre & suf & Hs & Hne & Hd & Hu & Hleft).
      exists (String c pre), suf.
      split; [now rewrite Hs|]. split; [exact Hne|]. split; [exact Hd|].
      split; [exact Hu|].
      intros a b Hab Hb ds' u' Hat. destruct a as [|c' a].
      * assert (Hb' : b = String c pre) by (symmetry; exact Hab).
        rewrite Hb' in Hat.
        change (String c pre +:+ ?x) with (String c (pre +:+ x)) in Hat.
        rewrite <- Hs in Hat.
        exact (proj1 (match_here_None _) Hm ds' u' Hat).
      * inversion Hab; subst. exact (Hleft a b eq_refl Hb ds' u' Hat).
Qed.

Lemma leftmost_find_match (s ds : string) (u : ascii) :
  leftmost_relative_time s ds u -> find_match s = Some (ds, u).
Proof.
  intros (pre & suf & -> & Hne & Hd & Hu & Hleft).
  induction pre as [|c r IH].
  - now apply find_match_here.
  - change (String c r +:+ ?x) with (String c (r +:+ x)).
    cbn [find_match].
    assert (Hm : match_here (String c (r +:+ String "-" (ds +:+ String u suf))) = None).
    { apply match_here_None. intros ds' u'.
      apply (Hleft EmptyString (String c r) eq_refl). discriminate. }
    rewrite Hm. apply IH.
    intros a b Hab Hb. apply (Hleft (String c a) b); [now rewrite Hab|exact Hb].
Qed.

Lemma leftmost_relative_time_unique (s ds ds' : string) (u u' : ascii) :
  leftmost_relative_time s ds u -> leftmost_relative_time s ds' u' ->
  ds = ds' /\ u = u'.
Proof.
  intros H H'. apply leftmost_find_match in H, H'.
  rewrite H in H'. inversion H'. auto.
Qed.

Lemma leftmost_contains (s ds : string) (u : ascii) :
  leftmost_relative_time s ds u -> contains_relative_time s.
Proof.
  intros (pre & suf & Hs & Hne & Hd & Hu & _). now exists pre, ds, u, suf.
Qed.

(** The outcome of the parser is fixed by the leftmost match of the pattern
    in the text, on every input. With no match it panics with an index out
    of range. With a leftmost match [-<N><u>] whose [N] exceeds the [int]
    range it returns -1 with strconv's range error. With a leftmost match
    whose [N] fits, it returns, with no error, [N] times the multiplier of
    [u] (60000, 3600000, 86400000 or 604800000) reduced to 64 bits. The
    three cases exclude each other ([leftmost_relative_time_unique],
    [leftmost_contains]), so each outcome occurs exactly in its case. *)
Theorem fromRangeToMilliSeconds_outcomes (timeRange : string) :
  (~ contains_relative_time timeRange /\
   fromRangeToMilliSeconds timeRange = Panic (IndexOutOfRange 2 0)) \/
  (exists ds u, leftmost_relative_time timeRange ds u /\
     MaxInt < decimal ds /\
     fromRangeToMilliSeconds timeRange =
       Ok (-1, Some (NumError "Atoi" ds "value out of range"))) \/
  (exists ds u c, leftmost_relative_time timeRange ds u /\
     ((u = "m"%char /\ c = 60000) \/ (u = "h"%char /\ c = 3600000) \/
      (u = "d"%char /\ c = 86400000) \/ (u = "w"%char /\ c = 604800000)) /\
     0 <= decimal ds <= MaxInt /\
     fromRangeToMilliSeconds timeRange = Ok (wrap_int (decimal ds * c), None)).
Proof.
  destruct (find_match timeRange) as [[ds u]|] eqn:Hf.
  - right. rewrite (fromRangeToMilliSeconds_found _ _ _ Hf).
    pose proof (find_match_leftmost _ _ _ Hf) as Hleft.
    destruct Hleft as (pre & suf & Hs & Hne & Hd & Hu & Hno).
    assert (Hleft : leftmost_relative_time timeRange ds u)
      by (exists pre, suf; auto).
    rewrite (strconv_Atoi_digits ds Hne Hd).
    destruct (MaxInt <? decimal ds) eqn:Hmax.
    + apply Z.ltb_lt in Hmax. left. exists ds, u. auto.
    + apply Z.ltb_ge in Hmax. right.
      exists ds, u, (unit_multiplier (String u EmptyString)).
      split; [exact Hleft|]. split; [apply (unit_multiplier_unit u Hu)|].
      split; [split; [now apply decimal_nonneg|exact Hmax]|reflexivity].
  - left. split; [|now apply fromRangeToMilliSeconds_not_found].
    intros Hc. apply regexp_MatchString_spec in Hc.
    unfold regexp_MatchString in Hc. rewrite Hf in Hc. discriminate.
Qed.


(** The validator and the parser agree: a value passes
    [validateSignalfxRelativeTime] with no error exactly when
    [fromRangeToMilliSeconds] returns on it instead of panicking. *)
Theorem validated_time_range_parses (ts k : string) :
  validateSignalfxRelativeTime (VString ts) k = Ok ([], []) <->
  exists r, fromRangeToMilliSeconds ts = Ok r.
Proof.
  unfold validateSignalfxRelativeTime, regexp_MatchString.
  cbn [assert_string mbind result_bind].
  destruct (find_match ts) as [[ds u]|] eqn:Hf; cbn [negb].
  - rewrite (fromRangeToMilliSeconds_found _ _ _ Hf). split; [|reflexivity].
    intros _. destruct (strconv_Atoi ds) as [val [e|]]; eauto.
  - rewrite (fromRangeToMilliSeconds_not_found _ Hf). split; [discriminate|].
    intros (r & Hr). discriminate.
Qed.

Lemma match_here_not_minus (c : ascii) (r : string) :
  c <> "-"%char -> match_here (String c r) = None.
Proof.
  intros Hc. unfold match_here.
  destruct c as [[] [] [] [] [] [] [] []]; try reflexivity. now contradict Hc.
Qed.

Lemma find_match_skip_prefix (pre s : string) :
  strings_Contains pre "-" = false -> find_match (pre +:+ s) = find_match s.
Proof.
  induction pre as [|c r IH]; intros Hn; [reflexivity|].
  cbn [strings_Contains has_prefix] in Hn.
  apply orb_false_iff in Hn. destruct Hn as [Hc Hr].
  rewrite andb_true_r in Hc. apply Ascii.eqb_neq in Hc.
  change (String c r +:+ s) with (String c (r +:+ s)).
  cbn [find_match]. rewrite match_here_not_minus by congruence. now apply IH.
Qed.

(** Text before the first minus sign plays no part: the parser gives on
    [pre] followed by [s] what it gives on [s], whatever [s] is. *)
Theorem fromRangeToMilliSeconds_skips_prefix (pre s : string) :
  strings_Contains pre "-" = false ->
  fromRangeToMilliSeconds (pre +:+ s) = fromRangeToMilliSeconds s.
Proof.
  intros Hn. unfold fromRangeToMilliSeconds, regexp_FindStringSubmatch.
  now rewrite (find_match_skip_prefix pre s Hn).
Qed.

Lemma fromRangeToMilliSeconds_skips_prefix_witness :
  fromRangeToMilliSeconds ("since " +:+ "-2d") = fromRangeToMilliSeconds "-2d".
Proof.
  exact (fromRangeToMilliSeconds_skips_prefix "since " "-2d" eq_refl).
Defined.

(** The four validators assert their value to be a string without a check:
    on a value of any other dynamic type each of them panics. *)
Theorem validators_panic_on_non_string (v : value) (k : string) :
  (forall s, v <> VString s) ->
  validateChartColor v k = Panic (InterfaceConversion "string") /\
  validateTimeSpanType v k = Panic (InterfaceConversion "string") /\
  validateSortBy v k = Panic (InterfaceConversion "string") /\
  validateSignalfxRelativeTime v k = Panic (InterfaceConversion "string").
Proof.
  intros Hv. destruct v; try (repeat split; reflexivity).
  exfalso. exact (Hv s eq_refl).
Qed.

Lemma validators_panic_on_non_string_witness :
  validateChartColor (VInt 5) "field" = Panic (InterfaceConversion "string") /\
  validateTimeSpanType (VInt 5) "field" = Panic (InterfaceConversion "string") /\
  validateSortBy (VInt 5) "field" = Panic (InterfaceConversion "string") /\
  validateSignalfxRelativeTime (VInt 5) "field" = Panic (InterfaceConversion "string").
Proof.
  apply (validators_panic_on_non_string (VInt 5) "field"). intros s. discriminate.
Defined.

(** ** Option builders on every input *)

Lemma assert_ints_Ok (l : list value) (ts : list Z) :
  assert_ints l = Ok ts -> l = VInt <$> ts.
Proof.
  revert ts. induction l as [|v l IH]; intros ts H.
  - inversion H. reflexivity.
  - cbn [assert_ints] in H. destruct v; try discriminate H.
    cbn in H. destruct (assert_ints l) as [ns|p]; [|discriminate H].
    inversion H; subst. now rewrite (IH ns eq_refl).
Qed.

(** The builder returns only on well-formed data: whenever it returns, the
    [color_scale] set lists first a map whose [thresholds] is a list of
    integers and whose [inverted] is a boolean, and the result holds these
    two keys and nothing else; the other elements of the set are not
    looked at. *)
Theorem getColorScaleOptions_accepts_only (d : ResourceData)
    (item : gmap string value) :
  getColorScaleOptions d = Ok item ->
  exists (options : gmap string value) (others : list value) (ts : list Z)
         (inverted : bool),
    d_Get d "color_scale" = VSet (VMap options :: others) /\
    map_index options "thresholds" = VList (VInt <$> ts) /\
    map_index options "inverted" = VBool inverted /\
    item = <["inverted" := VBool inverted]>
             (<["thresholds" := VIntSlice (sort_desc ts)]> ∅).
Proof.
  unfold getColorScaleOptions. intros H.
  destruct (d_Get d "color_scale") as [| | | | | | | |set| |]; try discriminate H.
  destruct set as [|colorScale others]; [discriminate H|].
  cbn in H. destruct colorScale as [| | | | | | | | |options|]; try discriminate H.
  cbn in H.
  destruct (map_index options "thresholds") as [| | | | | | |thresholdsList| | |] eqn:Hts;
    try discriminate H.
  cbn in H. destruct (assert_ints thresholdsList) as [ts|p] eqn:Hints; [|discriminate H].
  cbn in H.
  destruct (map_index options "inverted") as [|inverted| | | | | | | | |] eqn:Hinv;
    try discriminate H.
  cbn in H. inversion H; subst.
  apply assert_ints_Ok in Hints. subst thresholdsList.
  exists options, others, ts, inverted. auto.
Qed.

Lemma getColorScaleOptions_accepts_only_witness :
  exists (options : gmap string value) (others : list value) (ts : list Z)
         (inverted : bool),
    d_Get color_scale_data "color_scale" = VSet (VMap options :: others) /\
    map_index options "thresholds" = VList (VInt <$> ts) /\
    map_index options "inverted" = VBool inverted /\
    (<["inverted" := VBool false]> (<["thresholds" := VIntSlice [3; 2; 1]]> ∅)
       : gmap string value) =
      <["inverted" := VBool inverted]>
        (<["thresholds" := VIntSlice (sort_desc ts)]> ∅).
Proof.
  exact (getColorScaleOptions_accepts_only color_scale_data
    (<["inverted" := VBool false]> (<["thresholds" := VIntSlice [3; 2; 1]]> ∅))
    eq_refl).
Defined.

Lemma legend_items_Ok (l : list value) (items : list (gmap string value)) :
  legend_items l = Ok items ->
  exists names : list string,
    l = VString <$> names /\
    items = (fun name : string =>
               <["enabled" := VBool false]> (<["property" := VString name]> ∅)) <$> names.
Proof.
  revert items. induction l as [|v l IH]; intros items H.
  - inversion H. now exists [].
  - cbn [legend_items] in H. destruct v; try discriminate H.
    cbn in H. destruct (legend_items l) as [rest|p]; [|discriminate H].
    inversion H; subst. destruct (IH rest eq_refl) as (names & -> & ->).
    now exists (s :: names).
Qed.

Lemma legend_items_Panic (l : list value) (p : panic) :
  legend_items l = Panic p -> p = InterfaceConversion "string".
Proof.
  induction l as [|v l IH]; intros H; [discriminate H|].
  cbn [legend_items] in H. destruct v; try (inversion H; reflexivity).
  cbn in H. destruct (legend_items l) as [rest|q]; [discriminate H|].
  inversion H; subst. now apply IH.
Qed.

(** The legend builder on every resource data. It returns [nil] exactly when
    [legend_fields_to_hide] is unset or zero (the empty set); it returns
    options only for a non-empty set of strings, one item per name, each
    with [enabled] false; it panics on a non-zero value that is no set, or
    on a set with an element that is no string. *)
Theorem getLegendOptions_outcomes (d : ResourceData) :
  match getLegendOptions d with
  | Ok None => is_zero (d_Get d "legend_fields_to_hide") = true
  | Ok (Some legendOptions) =>
    exists names : list string,
      names <> [] /\
      d_Get d "legend_fields_to_hide" = VSet (VString <$> names) /\
      legendOptions = <["fields" := VMapSlice
        ((fun name : string =>
            <["enabled" := VBool false]> (<["property" := VString name]> ∅)) <$> names)]> ∅
  | Panic p =>
    is_zero (d_Get d "legend_fields_to_hide") = false /\
    (p = InterfaceConversion "*schema.Set" \/ p = InterfaceConversion "string")
  end.
Proof.
  unfold getLegendOptions, d_GetOk.
  destruct (is_zero (d_Get d "legend_fields_to_hide")) eqn:Hz; cbn [negb];
    [reflexivity|].
  destruct (d_Get d "legend_fields_to_hide") as [| | | | | | | |set| |];
    try (cbn; auto; fail).
  cbn [assert_set mbind result_bind].
  destruct (legend_items set) as [items|p] eqn:Hitems; cbn [mbind result_bind].
  - destruct (legend_items_Ok _ _ Hitems) as (names & -> & ->).
    destruct names as [|name names]; [discriminate Hz|].
    cbn. exists (name :: names). split; [discriminate|]. auto.
  - split; [reflexivity|]. right. now apply (legend_items_Panic set).
Qed.

(** ** What the lifecycle operations leave alone *)

Ltac case_op :=
  repeat match goal with
  | |- context [match ?x with _ => _ end] => destruct x eqn:?
  end.

Lemma resourceRead_states (w : World) (url tok : string) (d : ResourceData) :
  (resourceRead w url tok d).2 = d \/
  (resourceRead w url tok d).2 = d_SetId "" d \/
  exists remote, (resourceRead w url tok d).2 =
    d_Set "last_updated" (VFloat remote) (d_Set "synced" (VBool false) d).
Proof.
  unfold resourceRead. run_M.
  destruct (sendRequest w "GET" url tok None) as [[[code body] err]|p]; [|now left].
  cbn beta iota. destruct (code =? 200).
  - destruct (json_Unmarshal w body) as [e|mapped_resp]; [now left|].
    destruct (assert_float64 (map_index mapped_resp "lastUpdated")) as [remote|p];
      [|now left].
    destruct (assert_float64 (d_Get d "last_updated")) as [loc|p]; [|now left].
    destruct (loc + OFFSET <? remote)%float; [|now left].
    right. right. now exists remote.
  - destruct (strings_Contains (string_of_bytes body) "Resource not found");
      [right; now left|now left].
Qed.

(** Read on every world, whatever the status and however it ends: the
    identifier is kept or cleared, never set to another value; no field
    other than [synced] and [last_updated] changes; [synced] is kept or set
    to false, never set to true. *)
Theorem resourceRead_frame (w : World) (url tok : string) (d : ResourceData) :
  (Id (resourceRead w url tok d).2 = Id d \/ Id (resourceRead w url tok d).2 = "") /\
  (forall k : string, k <> "synced" -> k <> "last_updated" ->
     fields (resourceRead w url tok d).2 !! k = fields d !! k) /\
  (fields (resourceRead w url tok d).2 !! "synced" = fields d !! "synced" \/
   fields (resourceRead w url tok d).2 !! "synced" = Some (VBool false)).
Proof.
  destruct (resourceRead_states w url tok d) as [->|[->|(remote & ->)]].
  - split; [now left|]. split; [reflexivity|now left].
  - split; [now right|]. split; [reflexivity|now left].
  - split; [now left|]. split.
    + intros k Hs Hl. cbn. rewrite !lookup_insert_ne by congruence. reflexivity.
    + right. cbn. rewrite lookup_insert_ne by discriminate.
      now rewrite lookup_insert_eq.
Qed.

Lemma resourceCreate_states (w : World) (url tok : string)
    (payload : option string) (d : ResourceData) :
  (resourceCreate w url tok payload d).2 = d \/
  (exists id, (resourceCreate w url tok payload d).2 = d_SetId id d) \/
  exists id last_updated, (resourceCreate w url tok payload d).2 =
    d_Set "synced" (VBool true)
      (d_Set "last_updated" (VFloat last_updated) (d_SetId id d)).
Proof.
  unfold resourceCreate. run_M.
  destruct (sendRequest w "POST" url tok payload) as [[[code body] err]|p]; [|now left].
  cbn beta iota. destruct (code =? 200); [|now left].
  destruct (json_Unmarshal w body) as [e|mapped_resp]; [now left|].
  destruct (assert_string (map_index mapped_resp "id")) as [id|p]; [|now left].
  destruct (assert_float64 (map_index mapped_resp "lastUpdated")) as [lu|p].
  - right. right. now exists id, lu.
  - right. left. now exists id.
Qed.

(** Create on every world, however it ends: no field other than [synced]
    and [last_updated] changes, and [synced] is kept or set to true. *)
Theorem resourceCreate_frame (w : World) (url tok : string)
    (payload : option string) (d : ResourceData) :
  (forall k : string, k <> "synced" -> k <> "last_updated" ->
     fields (resourceCreate w url tok payload d).2 !! k = fields d !! k) /\
  (fields (resourceCreate w url tok payload d).2 !! "synced" = fields d !! "synced" \/
   fields (resourceCreate w url tok payload d).2 !! "synced" = Some (VBool true)).
Proof.
  destruct (resourceCreate_states w url tok payload d)
    as [->|[(id & ->)|(id & lu & ->)]].
  - split; [reflexivity|now left].
  - split; [reflexivity|now left].
  - split.
    + intros k Hs Hl. cbn. rewrite !lookup_insert_ne by congruence. reflexivity.
    + right. cbn. now rewrite lookup_insert_eq.
Qed.

Lemma resourceUpdate_states (w : World) (url tok : string)
    (payload : option string) (d : ResourceData) :
  (resourceUpdate w url tok payload d).2 = d \/
  (resourceUpdate w url tok payload d).2 = d_Set "synced" (VBool true) d \/
  exists last_updated, (resourceUpdate w url tok payload d).2 =
    d_Set "last_updated" (VFloat last_updated) (d_Set "synced" (VBool true) d).
Proof.
  unfold resourceUpdate. run_M.
  destruct (sendRequest w "PUT" url tok payload) as [[[code body] err]|p]; [|now left].
  cbn beta iota. destruct (code =? 200); [|now left].
  destruct (json_Unmarshal w body) as [e|mapped_resp]; [now left|].
  destruct (assert_float64 (map_index mapped_resp "lastUpdated")) as [lu|p].
  - right. right. now exists lu.
  - right. now left.
Qed.

(** Update on every world, however it ends: the identifier is kept; no
    field other than [synced] and [last_updated] changes; [synced] is kept
    or set to true. *)
Theorem resourceUpdate_frame (w : World) (url tok : string)
    (payload : option string) (d : ResourceData) :
  Id (resourceUpdate w url tok payload d).2 = Id d /\
  (forall k : string, k <> "synced" -> k <> "last_updated" ->
     fields (resourceUpdate w url tok payload d).2 !! k = fields d !! k) /\
  (fields (resourceUpdate w url tok payload d).2 !! "synced" = fields d !! "synced" \/
   fields (resourceUpdate w url tok payload d).2 !! "synced" = Some (VBool true)).
Proof.
  destruct (resourceUpdate_states w url tok payload d) as [->|[->|(lu & ->)]].
  - split; [reflexivity|]. split; [reflexivity|now left].
  - split; [reflexivity|]. split.
    + intros k Hs Hl. cbn. now rewrite lookup_insert_ne by congruence.
    + right. cbn. now rewrite lookup_insert_eq.
  - split; [reflexivity|]. split.
    + intros k Hs Hl. cbn. rewrite !lookup_insert_ne by congruence. reflexivity.
    + right. cbn. rewrite lookup_insert_ne by discriminate.
      now rewrite lookup_insert_eq.
Qed.

(** Delete on every world, however it ends: no field changes, and the
    identifier is kept or cleared. *)
Theorem resourceDelete_frame (w : World) (url tok : string) (d : ResourceData) :
  fields (resourceDelete w url tok d).2 = fields d /\
  (Id (resourceDelete w url tok d).2 = Id d \/ Id (resourceDelete w url tok d).2 = "").
Proof.
  unfold resourceDelete. run_M.
  destruct (sendRequest w "DELETE" url tok None) as [[[code body] err]|p];
    [|split; [reflexivity|now left]].
  cbn beta iota. destruct err as [e|]; [split; [reflexivity|now left]|].
  destruct ((code <? 400) || (code =? 404)); split; try reflexivity;
    [now right|now left].
Qed.

(** An operation that returns an error has changed nothing: for each of
    the four operations, a returned error comes with the data as it was
    before the call. *)
Theorem lifecycle_error_leaves_data (w : World) (url tok : string)
    (payload : option string) (d d' : ResourceData) (e : error) :
  (resourceRead w url tok d = (Ok (Some e), d') -> d' = d) /\
  (resourceCreate w url tok payload d = (Ok (Some e), d') -> d' = d) /\
  (resourceUpdate w url tok payload d = (Ok (Some e), d') -> d' = d) /\
  (resourceDelete w url tok d = (Ok (Some e), d') -> d' = d).
Proof.
  unfold resourceRead, resourceCreate, resourceUpdate, resourceDelete. run_M.
  repeat split; case_op; intros H; inversion H; reflexivity.
Qed.

(** ** Transport failures, and operations in sequence *)

(** Whenever [sendRequest] returns, the request was built, and it returns a
    body exactly when it returns no error; when it panics, the panic is the
    nil dereference of a request that was not built. *)
Theorem sendRequest_body_iff_no_error (w : World) (method url token : string)
    (payload : option string) :
  match sendRequest w method url token payload with
  | Panic p => p = NilPointerDereference /\ http_NewRequest_err w method url <> None
  | Ok (status_code, body, err) =>
    http_NewRequest_err w method url = None /\
    (err = None <-> body <> None)
  end.
Proof.
  unfold sendRequest. destruct (http_NewRequest_err w method url) as [e|].
  - split; [reflexivity|discriminate].
  - destruct (client_Do w _) as [e|code [body|e]];
      (split; [reflexivity|split; congruence]).
Qed.

(** When [client.Do] fails, Read, Create and Update take the sentinel -1
    for a status: they fail with the status error on -1 and a nil body,
    which does not carry the cause; Delete alone reports the cause. None of
    them changes the data. *)
Theorem lifecycle_on_transport_failure (w : World) (url tok : string)
    (payload : option string) (d : ResourceData) (e : error) :
  (forall method, http_NewRequest_err w method url = None) ->
  (forall req, client_Do w req = Do_err e) ->
  resourceRead w url tok d =
    (Ok (Some (status_error fmt_status (d_Get d "name") (-1) None)), d) /\
  resourceCreate w url tok payload d =
    (Ok (Some (status_error fmt_status (d_Get d "name") (-1) None)), d) /\
  resourceUpdate w url tok payload d =
    (Ok (Some (status_error fmt_status (d_Get d "name") (-1) None)), d) /\
  resourceDelete w url tok d =
    (Ok (Some (Errorf fmt_delete
       [Arg (d_Get d "name");
        ErrorText (Errorf "Failed sending %s request to Signalfx: %s"
                     [Arg (VString "DELETE"); ErrorText e])])), d).
Proof.
  intros Hreq Hdo.
  unfold resourceRead, resourceCreate, resourceUpdate, resourceDelete, sendRequest.
  run_M. rewrite !Hreq, !Hdo. repeat split.
Qed.

Lemma lifecycle_on_transport_failure_witness :
  resourceRead (world_of (Do_err (LibError "connection refused")) (decode_only "{}" ∅))
      "url" "token" (chart_data 1000) =
    (Ok (Some (status_error fmt_status (VString "cpu chart") (-1) None)),
     chart_data 1000).
Proof.
  refine (proj1 (lifecycle_on_transport_failure
    (world_of (Do_err (LibError "connection refused")) (decode_only "{}" ∅))
    "url" "token" None (chart_data 1000) (LibError "connection refused") _ _)).
  - intros method. reflexivity.
  - intros req. reflexivity.
Defined.

(** When [http.NewRequest] rejects the URL, each of the four operations
    panics with the nil dereference of [sendRequest], before it touches the
    data. *)
Theorem lifecycle_on_malformed_request (w : World) (url tok : string)
    (payload : option string) (d : ResourceData) :
  (forall method, http_NewRequest_err w method url <> None) ->
  resourceRead w url tok d = (Panic NilPointerDereference, d) /\
  resourceCreate w url tok payload d = (Panic NilPointerDereference, d) /\
  resourceUpdate w url tok payload d = (Panic NilPointerDereference, d) /\
  resourceDelete w url tok d = (Panic NilPointerDereference, d).
Proof.
  intros Hreq.
  assert (Hsend : forall method p,
            sendRequest w method url tok p = Panic NilPointerDereference).
  { intros method p. unfold sendRequest.
    destruct (http_NewRequest_err w method url) eqn:E; [reflexivity|].
    exfalso. exact (Hreq method E). }
  unfold resourceRead, resourceCreate, resourceUpdate, resourceDelete.
  run_M. rewrite !Hsend. repeat split.
Qed.

Lemma lifecycle_on_malformed_request_witness :
  resourceRead world_rejecting_colon ":" "token" (chart_data 1000) =
    (Panic NilPointerDereference, chart_data 1000) /\
  resourceCreate world_rejecting_colon ":" "token" (Some "{}") (chart_data 1000) =
    (Panic NilPointerDereference, chart_data 1000) /\
  resourceUpdate world_rejecting_colon ":" "token" (Some "{}") (chart_data 1000) =
    (Panic NilPointerDereference, chart_data 1000) /\
  resourceDelete world_rejecting_colon ":" "token" (chart_data 1000) =
    (Panic NilPointerDereference, chart_data 1000).
Proof.
  apply (lifecycle_on_malformed_request world_rejecting_colon ":" "token"
           (Some "{}") (chart_data 1000)).
  intros method. discriminate.
Defined.

(** Read clears a non-empty identifier exactly when the status is not 200
    and the body contains ["Resource not found"]. *)
Theorem resourceRead_clears_id_iff (w : World) (url tok : string) (d : ResourceData)
    (status_code : Z) (resp_body : option string) (err : option error) :
  sendRequest w "GET" url tok None = Ok (status_code, resp_body, err) ->
  Id d <> "" ->
  (Id (resourceRead w url tok d).2 = "" <->
   status_code <> 200 /\
   strings_Contains (string_of_bytes resp_body) "Resource not found" = true).
Proof.
  intros Hsend Hid. unfold resourceRead. run_M. rewrite Hsend. cbn beta iota.
  destruct (Z.eqb_spec status_code 200) as [->|Hs].
  - split; [|intros [H _]; now contradict H].
    intros H. exfalso. apply Hid. rewrite <- H.
    destruct (json_Unmarshal w resp_body) as [e|mapped_resp]; [reflexivity|].
    destruct (assert_float64 (map_index mapped_resp "lastUpdated")) as [remote|p];
      [|reflexivity].
    destruct (assert_float64 (d_Get d "last_updated")) as [loc|p]; [|reflexivity].
    destruct (loc + OFFSET <? remote)%float; reflexivity.
  - destruct (strings_Contains (string_of_bytes resp_body) "Resource not found").
    + split; [auto|reflexivity].
    + split; [intros H; now contradict Hid|intros [_ H]; discriminate].
Qed.

Lemma resourceRead_clears_id_iff_witness :
  Id (resourceRead (world_of (Do_resp 404 (ReadAll_ok "Resource not found: chart"))
                      (decode_only "{}" ∅)) "url" "token" (chart_data 1000)).2 = "".
Proof.
  refine (proj2 (resourceRead_clears_id_iff
    (world_of (Do_resp 404 (ReadAll_ok "Resource not found: chart")) (decode_only "{}" ∅))
    "url" "token" (chart_data 1000) 404 (Some "Resource not found: chart") None _ _) _).
  - reflexivity.
  - discriminate.
  - split; [lia|reflexivity].
Defined.

Lemma d_Set_update_overrides (d : ResourceData) (t t' : float) :
  d_Set "last_updated" (VFloat t) (d_Set "synced" (VBool true)
    (d_Set "last_updated" (VFloat t') (d_Set "synced" (VBool false) d))) =
  d_Set "last_updated" (VFloat t) (d_Set "synced" (VBool true) d).
Proof.
  unfold d_Set. cbn. f_equal. apply map_eq. intros k.
  destruct (decide (k = "last_updated")) as [->|Hl];
    [now rewrite !lookup_insert_eq|].
  rewrite !(lookup_insert_ne _ "last_updated") by congruence.
  destruct (decide (k = "synced")) as [->|Hs];
    [now rewrite !lookup_insert_eq|].
  rewrite !(lookup_insert_ne _ "synced") by congruence.
  rewrite !(lookup_insert_ne _ "last_updated") by congruence.
  now rewrite !(lookup_insert_ne _ "synced") by congruence.
Qed.

(** A successful Update erases what a Read over a status 200 recorded:
    after the Read, with or without drift, Update leaves the data it would
    have left without the Read, [synced] true and [last_updated] from its
    own response. *)
Theorem resourceUpdate_after_Read (w1 w2 : World) (url tok : string)
    (payload : option string) (d : ResourceData)
    (body1 body2 : option string) (err1 err2 : option error)
    (mapped_resp : gmap string value) (last_updated : float) :
  sendRequest w1 "GET" url tok None = Ok (200, body1, err1) ->
  sendRequest w2 "PUT" url tok payload = Ok (200, body2, err2) ->
  json_Unmarshal w2 body2 = inr mapped_resp ->
  mapped_resp !! "lastUpdated" = Some (VFloat last_updated) ->
  resourceUpdate w2 url tok payload (resourceRead w1 url tok d).2 =
    (Ok None, d_Set "last_updated" (VFloat last_updated)
                (d_Set "synced" (VBool true) d)).
Proof.
  intros Hget Hput Hjson Hlu.
  assert (Hupd : forall d0, resourceUpdate w2 url tok payload d0 =
            (Ok None, d_Set "last_updated" (VFloat last_updated)
                        (d_Set "synced" (VBool true) d0))).
  { intros d0. unfold resourceUpdate. run_M. rewrite Hput. cbn beta iota.
    change (200 =? 200) with true. cbn beta iota. rewrite Hjson.
    unfold map_index. rewrite Hlu. reflexivity. }
  rewrite Hupd.
  destruct (resourceRead_200_state w1 url tok d body1 err1 Hget) as [->|(remote & ->)].
  - reflexivity.
  - now rewrite d_Set_update_overrides.
Qed.

Lemma resourceUpdate_after_Read_witness :
  resourceUpdate
      (world_of (Do_resp 200 (ReadAll_ok "updated"))
         (decode_only "updated" (<["lastUpdated" := VFloat 20000]> ∅)))
      "url" "token" (Some "{}")
      (resourceRead (world_last_updated "11001" 11001) "url" "token" (chart_data 1000)).2 =
    (Ok None, d_Set "last_updated" (VFloat 20000)
                (d_Set "synced" (VBool true) (chart_data 1000))).
Proof.
  refine (resourceUpdate_after_Read
    (world_last_updated "11001" 11001)
    (world_of (Do_resp 200 (ReadAll_ok "updated"))
       (decode_only "updated" (<["lastUpdated" := VFloat 20000]> ∅)))
    "url" "token" (Some "{}") (chart_data 1000)
    (Some (body_last_updated "11001")) (Some "updated") None None
    (<["lastUpdated" := VFloat 20000]> ∅) 20000%float _ _ _ _); reflexivity.
Defined.

(** Update sets [synced] before it reads [lastUpdated]: over a status 200
    with a decoded object that holds no numeric [lastUpdated], it panics on
    the type assertion with [synced] already true. *)
Theorem resourceUpdate_missing_lastUpdated_panics (w : World) (url tok : string)
    (payload : option string) (d : ResourceData)
    (resp_body : option string) (err : option error)
    (mapped_resp : gmap string value) :
  sendRequest w "PUT" url tok payload = Ok (200, resp_body, err) ->
  json_Unmarshal w resp_body = inr mapped_resp ->
  (forall f, mapped_resp !! "lastUpdated" <> Some (VFloat f)) ->
  resourceUpdate w url tok payload d =
    (Panic (InterfaceConversion "float64"), d_Set "synced" (VBool true) d).
Proof.
  intros Hsend Hjson Hlu. unfold resourceUpdate. run_M. rewrite Hsend. cbn beta iota.
  change (200 =? 200) with true. cbn beta iota. rewrite Hjson.
  unfold map_index. destruct (mapped_resp !! "lastUpdated") as [[]|]; try reflexivity.
  exfalso. exact (Hlu _ eq_refl).
Qed.

Lemma resourceUpdate_missing_lastUpdated_panics_witness :
  resourceUpdate (world_of (Do_resp 200 (ReadAll_ok "{}")) (decode_only "{}" ∅))
      "url" "token" (Some "{}") (d_Set "synced" (VBool false) (chart_data 1000)) =
    (Panic (InterfaceConversion "float64"),
     d_Set "synced" (VBool true) (d_Set "synced" (VBool false) (chart_data 1000))).
Proof.
  refine (resourceUpdate_missing_lastUpdated_panics
    (world_of (Do_resp 200 (ReadAll_ok "{}")) (decode_only "{}" ∅))
    "url" "token" (Some "{}") (d_Set "synced" (VBool false) (chart_data 1000))
    (Some "{}") None ∅ _ _ _).
  - reflexivity.
  - reflexivity.
  - intros f. discriminate.
Defined.

(** A declared [last_updated] that was never set reads as 0.0: a first Read
    against a remote 11001 records drift, and does not panic. *)
Example resourceRead_unset_last_updated :
  resourceRead (world_last_updated "11001" 11001) "url" "token"
      {| Id := "DkMfHmBAgAA"; schema := chart_schema; fields := ∅ |} =
    (Ok None,
     {| Id := "DkMfHmBAgAA"; schema := chart_schema;
        fields := <["last_updated" := VFloat 11001]> (<["synced" := VBool false]> ∅) |}).
Proof. reflexivity. Qed.

(** Over a status 200 with a decoded object, Read panics on a type
    assertion, with the data untouched, when the object holds no numeric
    [lastUpdated], or when what [Get] returns for the local [last_updated]
    is no number (the field is set to another type, or the schema does not
    declare it as a float). A declared float that is not set is no such
    case: [Get] returns 0.0 and Read compares against it. *)
Theorem resourceRead_missing_number_panics (w : World) (url tok : string)
    (d : ResourceData) (resp_body : option string) (err : option error)
    (mapped_resp : gmap string value) :
  sendRequest w "GET" url tok None = Ok (200, resp_body, err) ->
  json_Unmarshal w resp_body = inr mapped_resp ->
  (forall f, mapped_resp !! "lastUpdated" <> Some (VFloat f)) \/
  (forall f, d_Get d "last_updated" <> VFloat f) ->
  resourceRead w url tok d = (Panic (InterfaceConversion "float64"), d).
Proof.
  intros Hsend Hjson Hlu. unfold resourceRead. run_M. rewrite Hsend. cbn beta iota.
  change (200 =? 200) with true. cbn beta iota. rewrite Hjson.
  unfold map_index.
  destruct (mapped_resp !! "lastUpdated") as [[]|] eqn:Hr; try reflexivity.
  destruct (d_Get d "last_updated") eqn:Hl; try reflexivity.
  exfalso. destruct Hlu as [H|H]; [exact (H _ eq_refl)|exact (H _ eq_refl)].
Qed.

Lemma resourceRead_missing_number_panics_witness :
  resourceRead (world_of (Do_resp 200 (ReadAll_ok "{}")) (decode_only "{}" ∅))
      "url" "token" (chart_data 1000) =
    (Panic (InterfaceConversion "float64"), chart_data 1000).
Proof.
  refine (resourceRead_missing_number_panics
    (world_of (Do_resp 200 (ReadAll_ok "{}")) (decode_only "{}" ∅))
    "url" "token" (chart_data 1000) (Some "{}") None ∅ _ _ _).
  - reflexivity.
  - reflexivity.
  - left. intros f. discriminate.
Defined.
